(** * Person_Detector front end: a shallow embedding of the React component

    Sources embedded here:
    - [frontend/src/App.jsx]: upload form, live webcam session (timer,
      frame capture, detection request, overlay rendering);
    - [frontend/src/App.js]: the earlier upload-only component.

    JavaScript numbers are IEEE-754 doubles: they are modelled by Rocq's
    primitive floats, so that comparisons against the literals [0.7] and
    [0.4], the product [confidence * 100] and the division [1000 / fps] are
    the ones the browser performs.

    The component is event driven.  A handler, a timer callback or the
    continuation of an [await] runs to its next [await] as one function on
    the state; what it awaits is parked and resumed by a later event.  The
    state holds the [useState] and [useRef] cells together with the part of
    the browser the component acts on (interval timers, device tracks,
    overlay canvas), and every function that React creates during a render
    carries the values of that render.

    Not embedded: the theme, the drag highlighting (a drop hands its first
    file to handleFileChange), the markup other than what decides which
    elements and buttons exist, and the unmount cleanup. *)

From Stdlib Require Import ZArith List String Ascii Bool Lia.
From Stdlib Require Import PrimFloat Uint63 SpecFloat FloatOps FloatAxioms.
From Stdlib Require Import DecimalString QArith Qround.
Import ListNotations.

Local Close Scope Q_scope.

Set Warnings "-inexact-float".
Local Open Scope string_scope.

(* ------------------------------------------------------------------ *)
(** ** The parts of the JavaScript number library the component uses *)

Module JS.

Definition number := float.

Definition isNaN (x : number) : bool := negb (PrimFloat.eqb x x).

(** [Object.is] on numbers: [NaN] is itself, [+0] and [-0] differ. *)
Definition Object_is (x y : number) : bool := PrimFloat.Leibniz.eqb x y.

(** Exact conversion of an integer of magnitude below [2^53]. *)
Definition of_Z (z : Z) : number :=
  if (z <? 0)%Z
  then PrimFloat.opp (PrimFloat.of_uint63 (Uint63.of_Z (- z)))
  else PrimFloat.of_uint63 (Uint63.of_Z z).

(** [Math.max(a, b)]: [NaN] if either is; [+0] is larger than [-0]. *)
Definition Math_max (a b : number) : number :=
  if isNaN a || isNaN b then PrimFloat.nan
  else if PrimFloat.ltb a b then b
  else if PrimFloat.ltb b a then a
  else if PrimFloat.get_sign a then b else a.

(** [Math.round(x)]: the nearest integer, ties towards [+Infinity];
    [NaN], the infinities and the zeros are returned as they are, and a
    negative [x >= -0.5] gives [-0].  The integer is computed exactly from
    the mantissa and exponent of [x]. *)
Definition Math_round (x : number) : number :=
  match Prim2SF x with
  | S754_finite s m e =>
      if (0 <=? e)%Z then x
      else
        let k := (- e)%Z in
        let num := if s then Z.neg m else Z.pos m in
        let n := ((2 * num + 2 ^ k) / 2 ^ (k + 1))%Z in
        if (n =? 0)%Z
        then (if s then PrimFloat.opp PrimFloat.zero else PrimFloat.zero)
        else of_Z n
  | _ => x
  end.

Definition decimal (n : Z) : string :=
  NilZero.string_of_uint (N.to_uint (Z.to_N n)).

(** [x.toFixed(0)].  For [|x| < 1e21] the digits of the integer [n]
    nearest to [|x|] (the larger one on a tie), after a minus sign when
    [x < 0].  Beyond that ECMAScript falls back on [Number::toString],
    which is taken as a parameter. *)
Definition toFixed0 (toString : number -> string) (x : number) : string :=
  if isNaN x then "NaN"
  else
    let neg := PrimFloat.ltb x PrimFloat.zero in
    let ax := if neg then PrimFloat.opp x else x in
    if PrimFloat.leb 1e21%float ax then toString x
    else
      let n :=
        match Prim2SF ax with
        | S754_finite _ m e =>
            if (0 <=? e)%Z then (Z.pos m * 2 ^ e)%Z
            else ((2 * Z.pos m + 2 ^ (- e)) / 2 ^ (- e + 1))%Z
        | _ => 0%Z
        end in
      (if neg then "-" else "") ++ decimal n.

(** [Array.prototype.includes] on an array of strings. *)
Fixpoint includes (xs : list string) (x : string) : bool :=
  match xs with
  | [] => false
  | y :: ys => String.eqb y x || includes ys x
  end.

End JS.

(* ------------------------------------------------------------------ *)
(** ** Data shared by the two components *)

Record DetectionBox := mkBox { x1 : float; y1 : float; x2 : float; y2 : float }.

Record Detection := mkDetection {
  box : DetectionBox;
  class : string;
  confidence : float
}.

(** [getConfidenceColor] of App.jsx (lines 278-282). *)
Definition getConfidenceColor (confidence : float) : string :=
  if PrimFloat.ltb 0.7%float confidence then "#28a745"
  else if PrimFloat.ltb 0.4%float confidence then "#ffc107"
  else "#dc3545".

(** The expression of startLive (line 178) and of the FPS effect (line 220):
    [Math.max(100, Math.round(1000 / Math.max(1, liveFps)))]. *)
Definition tickInterval (liveFps : float) : float :=
  JS.Math_max 100%float
    (JS.Math_round (PrimFloat.div 1000%float (JS.Math_max 1%float liveFps))).

(* ------------------------------------------------------------------ *)
(** ** The upload form (both components) *)

(** A browser [File]: the fields the component reads. *)
Record File := mkFile { fname : string; ftype : string; fsize : Z }.

(** One entry of the [detections] array of a [POST /detect] response; the
    box is optional there and the result view does not read it. *)
Record ResultDetection := mkResultDetection {
  rclass : string;
  rconfidence : float;
  rbox : option DetectionBox
}.

Record DetectResult := mkResult {
  device : string;
  processed_image : string;
  detections : list ResultDetection
}.

(** The [useState] cells of the upload form, and the bodies of the
    [POST /detect] requests issued so far. *)
Record UploadState := mkUpload {
  file : option File;
  preview : string;
  error : string;
  loading : bool;
  result : option DetectResult;
  sent : list File
}.

Definition initialUpload : UploadState :=
  mkUpload None "" "" false None [].

Definition setFile (v : option File) (s : UploadState) : UploadState :=
  mkUpload v (preview s) (error s) (loading s) (result s) (sent s).
Definition setPreview (v : string) (s : UploadState) : UploadState :=
  mkUpload (file s) v (error s) (loading s) (result s) (sent s).
Definition setError (v : string) (s : UploadState) : UploadState :=
  mkUpload (file s) (preview s) v (loading s) (result s) (sent s).
Definition setLoading (v : bool) (s : UploadState) : UploadState :=
  mkUpload (file s) (preview s) (error s) v (result s) (sent s).
Definition setResult (v : option DetectResult) (s : UploadState) : UploadState :=
  mkUpload (file s) (preview s) (error s) (loading s) v (sent s).
Definition fetchDetect (body : File) (s : UploadState) : UploadState :=
  mkUpload (file s) (preview s) (error s) (loading s) (result s) (sent s ++ [body]).

Definition allowedTypes : list string := ["image/jpeg"; "image/png"; "image/bmp"].
Definition maxSize : Z := 5 * 1024 * 1024.

Definition invalidTypeMessage : string :=
  "Invalid file type. Please upload a JPG, PNG, or BMP image.".
Definition tooLargeMessage : string :=
  "Image size is too large. Maximum size is 5MB.".

(** What the server or the transport answered to [POST /detect]. *)
Inductive UploadOutcome :=
| UploadThrows (message : string)
| UploadResponse (ok : bool) (detail : string) (data : DetectResult).

(** [a || b] on strings: the empty string is falsy. *)
Definition orElse (a b : string) : string :=
  match a with EmptyString => b | _ => a end.

(** The style of a confidence bar in the result view (App.jsx lines
    411-417, App.js lines 224-230), for a given colour function. *)
Definition confidenceBar (toString : float -> string) (color : float -> string)
    (d : ResultDetection) : string * string :=
  (JS.toFixed0 toString (PrimFloat.mul (rconfidence d) 100%float) ++ "%",
   color (rconfidence d)).

(** *** App.jsx *)

(** [handleFileChange] (lines 70-92).  [files] is [e.target.files];
    [url] is the string [URL.createObjectURL] returns for the file. *)
Definition handleFileChange (files : list File) (url : string)
    (s : UploadState) : UploadState :=
  match files with
  | [] => s
  | selectedFile :: _ =>
      if negb (JS.includes allowedTypes (ftype selectedFile))
      then setError invalidTypeMessage s
      else if (fsize selectedFile >? maxSize)%Z
      then setError tooLargeMessage s
      else setResult None (setError "" (setPreview url (setFile (Some selectedFile) s)))
  end.

(** [handleSubmit] (lines 228-259), up to the [await fetch]. *)
Definition handleSubmit (s : UploadState) : UploadState :=
  match file s with
  | None => setError "Please select an image file" s
  | Some f => fetchDetect f (setError "" (setLoading true s))
  end.

(** [handleSubmit], from the answer on. *)
Definition handleSubmit_response (r : UploadOutcome) (s : UploadState)
    : UploadState :=
  let s' :=
    match r with
    | UploadResponse true _ data => setResult (Some data) s
    | UploadResponse false detail _ =>
        setError (orElse (orElse detail "Error detecting objects")
                    "An error occurred while processing the image") s
    | UploadThrows message =>
        setError (orElse message "An error occurred while processing the image") s
    end in
  setLoading false s'.

(** [handleReset] (lines 262-275); revoking the preview URL and clearing the
    native input leave the [useState] cells alone. *)
Definition handleReset (s : UploadState) : UploadState :=
  setError "" (setResult None (setPreview "" (setFile None s))).

(** *** App.js *)

Module AppJs.

(** [handleFileChange] (lines 38-60). *)
Definition handleFileChange (files : list File) (url : string)
    (s : UploadState) : UploadState :=
  match files with
  | [] => s
  | selectedFile :: _ =>
      if negb (JS.includes ["image/jpeg"; "image/png"; "image/bmp"]
                 (ftype selectedFile))
      then setError invalidTypeMessage s
      else if (fsize selectedFile >? 5 * 1024 * 1024)%Z
      then setError tooLargeMessage s
      else setResult None
             (setError "" (setPreview url (setFile (Some selectedFile) s)))
  end.

(** [handleSubmit] (lines 63-94), up to the [await fetch]. *)
Definition handleSubmit (s : UploadState) : UploadState :=
  match file s with
  | None => setError "Please select an image file" s
  | Some f => fetchDetect f (setError "" (setLoading true s))
  end.

(** [getConfidenceColor] (lines 105-109). *)
Definition getConfidenceColor (confidence : float) : string :=
  if PrimFloat.ltb 0.7%float confidence then "#28a745"
  else if PrimFloat.ltb 0.4%float confidence then "#ffc107"
  else "#dc3545".

End AppJs.

(* ------------------------------------------------------------------ *)
(** ** The overlay canvas (App.jsx) *)

(** What has been painted on a canvas since it was last cleared; each
    operation carries the context styles in force when it was issued. *)
Inductive DrawOp :=
| StrokeRect (strokeStyle : string) (lineWidth x y w h : float)
| FillRect (fillStyle : string) (x y w h : float)
| FillText (fillStyle font text : string) (x y : float).

Record Canvas := mkCanvas {
  cwidth : float;
  cheight : float;
  painted : list DrawOp
}.

(** Lines 105-112 of [drawDetections]: the box as it will be drawn. *)
Definition renderedBox (mirror : bool) (width : float) (b : DetectionBox)
    : DetectionBox :=
  if mirror
  then mkBox (PrimFloat.sub width (x2 b)) (y1 b) (PrimFloat.sub width (x1 b)) (y2 b)
  else b.

Section Overlay.

(** [ctx.measureText(label).width] under the font ['14px Arial']. *)
Variable measureText : string -> float.
(** [Number::toString], reached by [toFixed] only from [1e21] on. *)
Variable Number_toString : float -> string.

Local Open Scope float_scope.

(** The label of a detection (line 118). *)
Definition detectionLabel (det : Detection) : string :=
  (class det ++ " " ++ JS.toFixed0 Number_toString (confidence det * 100) ++ "%")%string.

(** The body of the [forEach] of [drawDetections] (lines 104-125). *)
Definition drawDetection (mirror : bool) (width : float) (det : Detection)
    : list DrawOp :=
  let b := renderedBox mirror width (box det) in
  let w := x2 b - x1 b in
  let h := y2 b - y1 b in
  let label := detectionLabel det in
  let textWidth := measureText label in
  let textHeight := 16 in
  [ StrokeRect (getConfidenceColor (confidence det)) 2 (x1 b) (y1 b) w h;
    FillRect "rgba(0, 255, 0, 0.8)" (x1 b)
      (JS.Math_max 0 (y1 b - textHeight - 4)) (textWidth + 8) (textHeight + 4);
    FillText "#000" "14px Arial" label (x1 b + 4) (JS.Math_max 12 (y1 b - 4)) ].

(** [drawDetections] (lines 95-126) on the canvas [canvasRef.current]:
    resize, clear, then draw every detection in order. *)
Definition drawDetections (mirror : bool) (canvasRef : option Canvas)
    (width height : float) (dets : list Detection) : option Canvas :=
  match canvasRef with
  | None => None
  | Some _ => Some (mkCanvas width height (flat_map (drawDetection mirror width) dets))
  end.

End Overlay.

(* ------------------------------------------------------------------ *)
(** ** The live session (App.jsx): state *)

(** [setInterval] returns a positive integer, so that a stored id is truthy
    exactly when the ref is not [null]. *)
Definition TimerId := positive.

(** A track of the camera. *)
Definition TrackId := nat.

(** A [MediaStream], by the device tracks [getTracks()] returns. *)
Definition MediaStream := list TrackId.

(** The bytes [toBlob] encodes a frame into. *)
Definition Blob := list Byte.byte.

(** The video element, by what the component reads and writes of it. *)
Record Video := mkVideo {
  srcObject : option MediaStream;
  readyState : Z;
  videoWidth : float;
  videoHeight : float
}.

(** The offscreen canvas processLiveFrame draws the frame on. *)
Record Offscreen := mkOffscreen { owidth : float; oheight : float }.

(** An entry of the [toasts] array (line 40). *)
Record Toast := mkToast { toastId : float; message : string; type : string }.

(** The [page] cell: ['upload'] or ['live']. *)
Inductive Page := PageUpload | PageLive.

(** The values of one render that the functions created by that render
    (startLive, processLiveFrame, drawDetections) have closed over.  A
    function handed to [setInterval] or resumed after an [await] keeps the
    values of the render that created it, whatever the cells hold by
    then; the refs it reads at the time it runs. *)
Record Closure := mkClosure {
  cl_liveFps : float;
  cl_liveConf : float;
  cl_mirror : bool
}.

(** An active interval timer and the processLiveFrame it calls. *)
Record Timer := mkTimer { tid : TimerId; delay : float; callback : Closure }.

(** The suspended [await]s and timeouts of the component. *)
Inductive Pending :=
| AwaitGetUserMedia (c : Closure)                    (* startLive, line 170 *)
| AwaitPlay (c : Closure)                            (* startLive, line 173 *)
| AwaitToBlob (c : Closure) (w h : float)            (* processLiveFrame, line 144 *)
| AwaitFetch (c : Closure) (w h : float) (conf : float) (body : Blob)
                                                     (* processLiveFrame, lines 148-153 *)
| ToastTimeout (id : float).                         (* showToast, line 41 *)

(** Calls into the browser that leave no other mark in the state. *)
Inductive Call :=
| CallGetUserMedia
| CallPlay
| CallSetInterval (id : TimerId) (ms : float)
| CallClearInterval (id : TimerId)
| CallTrackStop (t : TrackId)
| CallFetchLive (conf : float) (body : Blob)
| CallConsoleError.

(** The live part of the component and the piece of the browser it acts on:
    - [page] to [toasts]: the [useState] cells (lines 13, 29-37);
    - [videoRef] to [intervalRef]: the [useRef] cells (lines 23-26), the
      first two [None] while the live section is not rendered;
    - [effectDeps], [hasCleanup]: what React remembers of the last run of
      the effect of lines 217-225, its dependencies and whether it returned
      a cleanup;
    - [timers], [nextTimer]: the active interval timers and the next id;
    - [liveTracks]: the device tracks that are capturing;
    - [pending], [nextPending]: the parked continuations, by key;
    - [log]: the calls made so far. *)
Record LiveState := mkLive {
  page : Page;
  liveRunning : bool;
  liveError : string;
  mirror : bool;
  liveFps : float;
  liveConf : float;
  toasts : list Toast;
  videoRef : option Video;
  canvasRef : option Canvas;
  offscreenCanvasRef : option Offscreen;
  intervalRef : option TimerId;
  effectDeps : float * bool;
  hasCleanup : bool;
  timers : list Timer;
  nextTimer : TimerId;
  liveTracks : list TrackId;
  pending : list (nat * Pending);
  nextPending : nat;
  log : list Call
}.

Definition set_page (v : Page) (s : LiveState) : LiveState :=
  mkLive v (liveRunning s) (liveError s) (mirror s) (liveFps s) (liveConf s)
    (toasts s) (videoRef s) (canvasRef s) (offscreenCanvasRef s) (intervalRef
    s) (effectDeps s) (hasCleanup s) (timers s) (nextTimer s) (liveTracks
    s) (pending s) (nextPending s) (log s).
Definition set_liveRunning (v : bool) (s : LiveState) : LiveState :=
  mkLive (page s) v (liveError s) (mirror s) (liveFps s) (liveConf s)
    (toasts s) (videoRef s) (canvasRef s) (offscreenCanvasRef s) (intervalRef
    s) (effectDeps s) (hasCleanup s) (timers s) (nextTimer s) (liveTracks
    s) (pending s) (nextPending s) (log s).
Definition set_liveError (v : string) (s : LiveState) : LiveState :=
  mkLive (page s) (liveRunning s) v (mirror s) (liveFps s) (liveConf s)
    (toasts s) (videoRef s) (canvasRef s) (offscreenCanvasRef s) (intervalRef
    s) (effectDeps s) (hasCleanup s) (timers s) (nextTimer s) (liveTracks
    s) (pending s) (nextPending s) (log s).
Definition set_mirror (v : bool) (s : LiveState) : LiveState :=
  mkLive (page s) (liveRunning s) (liveError s) v (liveFps s) (liveConf s)
    (toasts s) (videoRef s) (canvasRef s) (offscreenCanvasRef s) (intervalRef
    s) (effectDeps s) (hasCleanup s) (timers s) (nextTimer s) (liveTracks
    s) (pending s) (nextPending s) (log s).
Definition set_liveFps (v : float) (s : LiveState) : LiveState :=
  mkLive (page s) (liveRunning s) (liveError s) (mirror s) v (liveConf s)
    (toasts s) (videoRef s) (canvasRef s) (offscreenCanvasRef s) (intervalRef
    s) (effectDeps s) (hasCleanup s) (timers s) (nextTimer s) (liveTracks
    s) (pending s) (nextPending s) (log s).
Definition set_liveConf (v : float) (s : LiveState) : LiveState :=
  mkLive (page s) (liveRunning s) (liveError s) (mirror s) (liveFps s) v
    (toasts s) (videoRef s) (canvasRef s) (offscreenCanvasRef s) (intervalRef
    s) (effectDeps s) (hasCleanup s) (timers s) (nextTimer s) (liveTracks
    s) (pending s) (nextPending s) (log s).
Definition set_toasts (v : list Toast) (s : LiveState) : LiveState :=
  mkLive (page s) (liveRunning s) (liveError s) (mirror s) (liveFps s)
    (liveConf s) v (videoRef s) (canvasRef s) (offscreenCanvasRef s)
    (intervalRef s) (effectDeps s) (hasCleanup s) (timers s) (nextTimer s)
    (liveTracks s) (pending s) (nextPending s) (log s).
Definition set_videoRef (v : option Video) (s : LiveState) : LiveState :=
  mkLive (page s) (liveRunning s) (liveError s) (mirror s) (liveFps s)
    (liveConf s) (toasts s) v (canvasRef s) (offscreenCanvasRef s)
    (intervalRef s) (effectDeps s) (hasCleanup s) (timers s) (nextTimer s)
    (liveTracks s) (pending s) (nextPending s) (log s).
Definition set_canvasRef (v : option Canvas) (s : LiveState) : LiveState :=
  mkLive (page s) (liveRunning s) (liveError s) (mirror s) (liveFps s)
    (liveConf s) (toasts s) (videoRef s) v (offscreenCanvasRef s) (intervalRef
    s) (effectDeps s) (hasCleanup s) (timers s) (nextTimer s) (liveTracks
    s) (pending s) (nextPending s) (log s).
Definition set_offscreenCanvasRef (v : option Offscreen) (s : LiveState) : LiveState :=
  mkLive (page s) (liveRunning s) (liveError s) (mirror s) (liveFps s)
    (liveConf s) (toasts s) (videoRef s) (canvasRef s) v (intervalRef s)
    (effectDeps s) (hasCleanup s) (timers s) (nextTimer s) (liveTracks s)
    (pending s) (nextPending s) (log s).
Definition set_intervalRef (v : option TimerId) (s : LiveState) : LiveState :=
  mkLive (page s) (liveRunning s) (liveError s) (mirror s) (liveFps s)
    (liveConf s) (toasts s) (videoRef s) (canvasRef s) (offscreenCanvasRef s)
    v (effectDeps s) (hasCleanup s) (timers s) (nextTimer s) (liveTracks s)
    (pending s) (nextPending s) (log s).
Definition set_effectDeps (v : float * bool) (s : LiveState) : LiveState :=
  mkLive (page s) (liveRunning s) (liveError s) (mirror s) (liveFps s)
    (liveConf s) (toasts s) (videoRef s) (canvasRef s) (offscreenCanvasRef s)
    (intervalRef s) v (hasCleanup s) (timers s) (nextTimer s) (liveTracks
    s) (pending s) (nextPending s) (log s).
Definition set_hasCleanup (v : bool) (s : LiveState) : LiveState :=
  mkLive (page s) (liveRunning s) (liveError s) (mirror s) (liveFps s)
    (liveConf s) (toasts s) (videoRef s) (canvasRef s) (offscreenCanvasRef s)
    (intervalRef s) (effectDeps s) v (timers s) (nextTimer s) (liveTracks s)
    (pending s) (nextPending s) (log s).
Definition set_timers (v : list Timer) (s : LiveState) : LiveState :=
  mkLive (page s) (liveRunning s) (liveError s) (mirror s) (liveFps s)
    (liveConf s) (toasts s) (videoRef s) (canvasRef s) (offscreenCanvasRef s)
    (intervalRef s) (effectDeps s) (hasCleanup s) v (nextTimer s)
    (liveTracks s) (pending s) (nextPending s) (log s).
Definition set_nextTimer (v : TimerId) (s : LiveState) : LiveState :=
  mkLive (page s) (liveRunning s) (liveError s) (mirror s) (liveFps s)
    (liveConf s) (toasts s) (videoRef s) (canvasRef s) (offscreenCanvasRef s)
    (intervalRef s) (effectDeps s) (hasCleanup s) (timers s) v (liveTracks
    s) (pending s) (nextPending s) (log s).
Definition set_liveTracks (v : list TrackId) (s : LiveState) : LiveState :=
  mkLive (page s) (liveRunning s) (liveError s) (mirror s) (liveFps s)
    (liveConf s) (toasts s) (videoRef s) (canvasRef s) (offscreenCanvasRef s)
    (intervalRef s) (effectDeps s) (hasCleanup s) (timers s) (nextTimer s)
    v (pending s) (nextPending s) (log s).
Definition set_pending (v : list (nat * Pending)) (s : LiveState) : LiveState :=
  mkLive (page s) (liveRunning s) (liveError s) (mirror s) (liveFps s)
    (liveConf s) (toasts s) (videoRef s) (canvasRef s) (offscreenCanvasRef s)
    (intervalRef s) (effectDeps s) (hasCleanup s) (timers s) (nextTimer s)
    (liveTracks s) v (nextPending s) (log s).
Definition set_nextPending (v : nat) (s : LiveState) : LiveState :=
  mkLive (page s) (liveRunning s) (liveError s) (mirror s) (liveFps s)
    (liveConf s) (toasts s) (videoRef s) (canvasRef s) (offscreenCanvasRef s)
    (intervalRef s) (effectDeps s) (hasCleanup s) (timers s) (nextTimer s)
    (liveTracks s) (pending s) v (log s).
Definition set_log (v : list Call) (s : LiveState) : LiveState :=
  mkLive (page s) (liveRunning s) (liveError s) (mirror s) (liveFps s)
    (liveConf s) (toasts s) (videoRef s) (canvasRef s) (offscreenCanvasRef s)
    (intervalRef s) (effectDeps s) (hasCleanup s) (timers s) (nextTimer s)
    (liveTracks s) (pending s) (nextPending s) v.

(** The component as it mounts: upload page, FPS 2, confidence 0.25, mirror
    on, and the effect run once without a cleanup. *)
Definition initialLive : LiveState :=
  mkLive PageUpload false "" true 2%float 0.25%float [] None None None None
    (2%float, false) false [] 1%positive [] [] 0 [].

(* ------------------------------------------------------------------ *)
(** ** The live session: browser primitives and React bookkeeping *)

(** What the functions of the current render close over. *)
Definition currentRender (s : LiveState) : Closure :=
  mkClosure (liveFps s) (liveConf s) (mirror s).

(** Appends a call to the log. *)
Definition record (c : Call) (s : LiveState) : LiveState :=
  set_log (log s ++ [c]) s.

(** [clearInterval(id)]: no effect when no such timer is active. *)
Definition clearInterval (id : TimerId) (s : LiveState) : LiveState :=
  record (CallClearInterval id)
    (set_timers (filter (fun t => negb (Pos.eqb (tid t) id)) (timers s)) s).

(** [setInterval(processLiveFrame, ms)], for the processLiveFrame of the
    render [c]; returns the id of the new timer. *)
Definition setInterval (c : Closure) (ms : float) (s : LiveState)
    : TimerId * LiveState :=
  let id := nextTimer s in
  (id, record (CallSetInterval id ms)
         (set_nextTimer (Pos.succ id)
            (set_timers (timers s ++ [mkTimer id ms c]) s))).

(** Parks a continuation until the browser settles it. *)
Definition suspend (p : Pending) (s : LiveState) : LiveState :=
  set_nextPending (S (nextPending s))
    (set_pending (pending s ++ [(nextPending s, p)]) s).

(** The continuation parked under key [k]. *)
Fixpoint lookupPending (k : nat) (ps : list (nat * Pending)) : option Pending :=
  match ps with
  | [] => None
  | (k', p) :: ps' => if Nat.eqb k' k then Some p else lookupPending k ps'
  end.

(** Takes the continuation of key [k] out of the parked ones. *)
Definition resume (k : nat) (s : LiveState) : LiveState :=
  set_pending (filter (fun kp => negb (Nat.eqb (fst kp) k)) (pending s)) s.

(** [t.stop()] on every track of a stream (line 195). *)
Definition stopTracks (ts : list TrackId) (s : LiveState) : LiveState :=
  fold_left
    (fun s t =>
       record (CallTrackStop t)
         (set_liveTracks (filter (fun t' => negb (Nat.eqb t' t)) (liveTracks s)) s))
    ts s.

(** A media element without a source: assigning [null] to [srcObject] runs
    the load algorithm, which resets the element to HAVE_NOTHING. *)
Definition emptyVideo : Video := mkVideo None 0 0%float 0%float.

(** A canvas as it is created: 300 by 150 and blank. *)
Definition blankCanvas : Canvas := mkCanvas 300%float 150%float [].

(** [showToast] (lines 38-44); [now] is [Date.now() + Math.random()]. *)
Definition showToast (now : float) (msg ty : string) (s : LiveState) : LiveState :=
  suspend (ToastTimeout now) (set_toasts (toasts s ++ [mkToast now msg ty]) s).

(** The timeout of showToast (line 42). *)
Definition dismissToast (id : float) (s : LiveState) : LiveState :=
  set_toasts (filter (fun x => negb (PrimFloat.eqb (toastId x) id)) (toasts s)) s.

(** [stopLive] (lines 186-204). *)
Definition stopLive (s : LiveState) : LiveState :=
  let s := set_liveRunning false s in
  let s :=
    match intervalRef s with
    | Some id => set_intervalRef None (clearInterval id s)
    | None => s
    end in
  let s :=
    match videoRef s with
    | Some video =>
        match srcObject video with
        | Some stream => set_videoRef (Some emptyVideo) (stopTracks stream s)
        | None => s
        end
    | None => s
    end in
  match canvasRef s with
  | Some canvas => set_canvasRef (Some (mkCanvas (cwidth canvas) (cheight canvas) [])) s
  | None => s
  end.

(** The effect of lines 217-225, run under the current render. *)
Definition fpsEffect (s : LiveState) : LiveState :=
  if negb (liveRunning s) then set_hasCleanup false s
  else
    let s :=
      match intervalRef s with
      | Some id => clearInterval id s
      | None => s
      end in
    let interval := tickInterval (liveFps s) in
    let '(id, s) := setInterval (currentRender s) interval s in
    set_hasCleanup true (set_intervalRef (Some id) s).

(** The cleanup that effect returns (lines 222-224). *)
Definition fpsEffectCleanup (s : LiveState) : LiveState :=
  match intervalRef s with
  | Some id => clearInterval id s
  | None => s
  end.

(** React after a handler has run: when a dependency of the effect
    ([liveFps], [liveRunning]) differs from the previous render's, the
    cleanup of the previous run (if it returned one) and then the effect. *)
Definition commit (s : LiveState) : LiveState :=
  if JS.Object_is (fst (effectDeps s)) (liveFps s)
     && Bool.eqb (snd (effectDeps s)) (liveRunning s)
  then s
  else
    let s := if hasCleanup s then fpsEffectCleanup s else s in
    set_effectDeps (liveFps s, liveRunning s) (fpsEffect s).

(* ------------------------------------------------------------------ *)
(** ** The live session: the component's functions *)

(** What [fetch] and [response.json()] produced in processLiveFrame. *)
Inductive FetchOutcome :=
| FetchRejects
| BodyRejects
| Response (ok : bool) (detections : option (list Detection)).

Section Live.

Variable measureText : string -> float.
Variable Number_toString : float -> string.

(** [processLiveFrame] (lines 129-165) up to [await toBlob] (line 144). *)
Definition processLiveFrame (c : Closure) (s : LiveState) : LiveState :=
  match videoRef s with
  | None => s
  | Some video =>
      if (readyState video <? 2)%Z then s
      else
        let w := videoWidth video in
        let h := videoHeight video in
        suspend (AwaitToBlob c w h)
          (set_offscreenCanvasRef (Some (mkOffscreen w h)) s)
  end.

(** [processLiveFrame] from the blob to [await fetch] (lines 145-152). *)
Definition processLiveFrame_blob (c : Closure) (w h : float)
    (blob : option Blob) (s : LiveState) : LiveState :=
  match blob with
  | None => s
  | Some b =>
      record (CallFetchLive (cl_liveConf c) b)
        (suspend (AwaitFetch c w h (cl_liveConf c) b) s)
  end.

(** [processLiveFrame] from the answer on (lines 153-161). *)
Definition processLiveFrame_response (c : Closure) (w h : float)
    (r : FetchOutcome) (now : float) (s : LiveState) : LiveState :=
  match r with
  | Response true dets =>
      let dets := match dets with Some l => l | None => [] end in
      set_liveError ""
        (set_canvasRef
           (drawDetections measureText Number_toString
              (cl_mirror c) (canvasRef s) w h dets) s)
  | _ =>
      stopLive (showToast now "Live detection error." "error"
                  (record CallConsoleError s))
  end.

(** [startLive] (lines 167-184) up to [await getUserMedia]. *)
Definition startLive (c : Closure) (s : LiveState) : LiveState :=
  suspend (AwaitGetUserMedia c) (record CallGetUserMedia (set_liveError "" s)).

(** Lines 176-179 of [startLive]. *)
Definition startLive_run (c : Closure) (s : LiveState) : LiveState :=
  let s := set_liveRunning true s in
  let interval := tickInterval (cl_liveFps c) in
  let '(id, s) := setInterval c interval s in
  set_intervalRef (Some id) s.

(** The [catch] of [startLive] (lines 180-183). *)
Definition startLive_catch (now : float) (s : LiveState) : LiveState :=
  set_liveRunning false (showToast now "Could not access the webcam." "error" s).

(** [startLive] once [getUserMedia] has settled (lines 170-174); a granted
    stream comes with its tracks capturing. *)
Definition startLive_stream (c : Closure) (r : option MediaStream)
    (now : float) (s : LiveState) : LiveState :=
  match r with
  | None => startLive_catch now s
  | Some stream =>
      let s := set_liveTracks (liveTracks s ++ stream) s in
      match videoRef s with
      | Some video =>
          suspend (AwaitPlay c)
            (record CallPlay
               (set_videoRef
                  (Some (mkVideo (Some stream) 0 0%float 0%float)) s))
      | None => startLive_run c s
      end
  end.

(** [startLive] once [play()] has settled (line 173). *)
Definition startLive_played (c : Closure) (ok : bool) (now : float)
    (s : LiveState) : LiveState :=
  if ok then startLive_run c s else startLive_catch now s.

(** The nav buttons (lines 306-317): the video and the canvas exist only
    on the live page (lines 433-461), and their refs follow. *)
Definition setPage (p : Page) (s : LiveState) : LiveState :=
  match page s, p with
  | PageUpload, PageLive =>
      set_canvasRef (Some blankCanvas)
        (set_videoRef (Some emptyVideo) (set_page PageLive s))
  | PageLive, PageUpload =>
      set_canvasRef None (set_videoRef None (set_page PageUpload s))
  | _, _ => s
  end.

(** What can happen to the component. *)
Inductive Event :=
| ClickNav (p : Page)
| ClickStartLive
| ClickStopLive
| ChangeMirror (checked : bool)
| ChangeFps (v : float)
| ChangeConf (v : float)
| Tick (id : TimerId)
| GetUserMediaSettles (k : nat) (r : option MediaStream) (now : float)
| PlaySettles (k : nat) (ok : bool) (now : float)
| ToBlobCalls (k : nat) (blob : option Blob)
| FetchSettles (k : nat) (r : FetchOutcome) (now : float)
| ToastExpires (k : nat)
| VideoLoads (rs : Z) (w h : float).

Definition onLivePage (s : LiveState) : bool :=
  match page s with PageLive => true | PageUpload => false end.

(** The handler an event runs; an event that cannot happen in [s] (a
    button that is not rendered, a timer that is not active, a
    continuation that is not parked) leaves [s] as it is. *)
Definition handle (e : Event) (s : LiveState) : LiveState :=
  match e with
  | ClickNav p => setPage p s
  | ClickStartLive =>
      if onLivePage s && negb (liveRunning s)
      then startLive (currentRender s) s else s
  | ClickStopLive =>
      if onLivePage s && liveRunning s then stopLive s else s
  | ChangeMirror b => if onLivePage s then set_mirror b s else s
  | ChangeFps v => if onLivePage s then set_liveFps v s else s
  | ChangeConf v => if onLivePage s then set_liveConf v s else s
  | Tick id =>
      match find (fun t => Pos.eqb (tid t) id) (timers s) with
      | Some t => processLiveFrame (callback t) s
      | None => s
      end
  | GetUserMediaSettles k r now =>
      match lookupPending k (pending s) with
      | Some (AwaitGetUserMedia c) => startLive_stream c r now (resume k s)
      | _ => s
      end
  | PlaySettles k ok now =>
      match lookupPending k (pending s) with
      | Some (AwaitPlay c) => startLive_played c ok now (resume k s)
      | _ => s
      end
  | ToBlobCalls k blob =>
      match lookupPending k (pending s) with
      | Some (AwaitToBlob c w h) => processLiveFrame_blob c w h blob (resume k s)
      | _ => s
      end
  | FetchSettles k r now =>
      match lookupPending k (pending s) with
      | Some (AwaitFetch c w h _ _) =>
          processLiveFrame_response c w h r now (resume k s)
      | _ => s
      end
  | ToastExpires k =>
      match lookupPending k (pending s) with
      | Some (ToastTimeout id) => dismissToast id (resume k s)
      | _ => s
      end
  | VideoLoads rs w h =>
      match videoRef s with
      | Some video =>
          match srcObject video with
          | Some stream => set_videoRef (Some (mkVideo (Some stream) rs w h)) s
          | None => s
          end
      | None => s
      end
  end.

(** One event: its handler, then React's commit. *)
Definition step (s : LiveState) (e : Event) : LiveState := commit (handle e s).

Definition run (es : list Event) (s : LiveState) : LiveState :=
  fold_left step es s.

End Live.

(* ------------------------------------------------------------------ *)
(** ** Observations on a live state *)

(** What is painted on the overlay. *)
Definition overlay (s : LiveState) : list DrawOp :=
  match canvasRef s with
  | Some canvas => painted canvas
  | None => []
  end.

(** The tracks of the stream attached to the video element. *)
Definition attachedTracks (s : LiveState) : list TrackId :=
  match videoRef s with
  | Some video =>
      match srcObject video with
      | Some stream => stream
      | None => []
      end
  | None => []
  end.

(** Some track of [ts] is still capturing. *)
Definition capturing (ts : list TrackId) (s : LiveState) : bool :=
  existsb (fun t => existsb (Nat.eqb t) (liveTracks s)) ts.

Definition timerActive (id : TimerId) (s : LiveState) : bool :=
  existsb (fun t => Pos.eqb (tid t) id) (timers s).

(** The active timers are at most the one [intervalRef] holds. *)
Definition timerOwned (s : LiveState) : bool :=
  match timers s, intervalRef s with
  | [], _ => true
  | [t], Some id => Pos.eqb (tid t) id
  | _, _ => false
  end.

(** Every capturing track belongs to the stream attached to the video. *)
Definition deviceAttached (s : LiveState) : bool :=
  forallb (fun t => existsb (Nat.eqb t) (attachedTracks s)) (liveTracks s).

(** The effect has run for the current values of its dependencies. *)
Definition committed (s : LiveState) : bool :=
  JS.Object_is (fst (effectDeps s)) (liveFps s)
  && Bool.eqb (snd (effectDeps s)) (liveRunning s).

(** What stopLive itself establishes: the session is not running,
    intervalRef holds no timer, the video element that is mounted has no
    stream, and nothing is on the overlay.  It says nothing of timers that
    intervalRef does not hold nor of tracks whose stream is not on the
    mounted video element. *)
Definition stopped (s : LiveState) : bool :=
  negb (liveRunning s)
  && match intervalRef s with None => true | Some _ => false end
  && match videoRef s with
     | Some video => match srcObject video with None => true | Some _ => false end
     | None => true
     end
  && match overlay s with [] => true | _ => false end.

(** A detection request [k] is outstanding. *)
Definition requestOutstanding (k : nat) (s : LiveState) : bool :=
  match lookupPending k (pending s) with
  | Some (AwaitFetch _ _ _ _ _) => true
  | _ => false
  end.

(** The answers that make the request of processLiveFrame fail. *)
Definition failed (r : FetchOutcome) : bool :=
  match r with
  | Response true _ => false
  | _ => true
  end.

(* ------------------------------------------------------------------ *)
(** ** The specification's formulas, for comparison *)

Module Spec.

(** [max(100, round(1000 / max(1, fps)))] over the rationals, rounding to
    the nearest integer. *)
Definition intervalMs (fps : Z) : Z :=
  Z.max 100 (Qfloor (Qplus (Qmake 1000 (Z.to_pos (Z.max 1 fps))) (Qmake 1 2))).

Inductive Tier := High | Medium | Low.

(** The colours App.jsx and App.js name Green, Yellow and Red. *)
Definition tierColor (t : Tier) : string :=
  match t with
  | High => "#28a745"
  | Medium => "#ffc107"
  | Low => "#dc3545"
  end.

(** [> 0.7] high, [> 0.4] medium, else low, with JavaScript's [>]. *)
Definition tier (confidence : float) : Tier :=
  if PrimFloat.ltb 0.7%float confidence then High
  else if PrimFloat.ltb 0.4%float confidence then Medium
  else Low.

(** Accepted MIME type and at most 5 MiB. *)
Definition acceptable (f : File) : bool :=
  (String.eqb (ftype f) "image/jpeg" || String.eqb (ftype f) "image/png"
   || String.eqb (ftype f) "image/bmp")
  && (fsize f <=? 5 * 2 ^ 20)%Z.

End Spec.

(** The error line of the upload form (App.jsx line 362, App.js line 163):
    rendered when [error] is not the empty string. *)
Definition errorBanner (s : UploadState) : option string :=
  match error s with
  | EmptyString => None
  | e => Some e
  end.

(* ------------------------------------------------------------------ *)
(** ** Definitions used to state and prove the properties *)

(** *** File selection *)

(** The three ways a selection with a first file ends. *)
Inductive Verdict := BadType | TooLarge | Accepted.

(** The two checks of handleFileChange, in the order it makes them. *)
Definition verdict (f : File) : Verdict :=
  if negb (JS.includes allowedTypes (ftype f)) then BadType
  else if (fsize f >? maxSize)%Z then TooLarge
  else Accepted.

(** *** stopLive, field by field *)

(** Membership in a list of track ids. *)
Definition hasTrack (ts : list TrackId) (t : TrackId) : bool :=
  existsb (Nat.eqb t) ts.

(** The video element after lines 192-197. *)
Definition videoAfterStop (s : LiveState) : option Video :=
  match videoRef s with
  | Some video =>
      match srcObject video with
      | Some _ => Some emptyVideo
      | None => Some video
      end
  | None => None
  end.

(** The overlay canvas after lines 199-203. *)
Definition canvasAfterStop (s : LiveState) : option Canvas :=
  match canvasRef s with
  | Some canvas => Some (mkCanvas (cwidth canvas) (cheight canvas) [])
  | None => None
  end.

(** The active timers after lines 188-191. *)
Definition timersAfterStop (s : LiveState) : list Timer :=
  match intervalRef s with
  | Some id => filter (fun t => negb (Pos.eqb (tid t) id)) (timers s)
  | None => timers s
  end.

(** The browser calls one stopLive makes. *)
Definition callsOfStop (s : LiveState) : list Call :=
  match intervalRef s with
  | Some id => [CallClearInterval id]
  | None => []
  end ++ map CallTrackStop (attachedTracks s).

(** *** Late answers *)

(** What the claim C1 asks of the component: the answer to a request that
    was outstanding when Stop Live was clicked leaves the overlay as the
    stop left it. *)
Definition discardsLateResults (measureText : string -> float)
    (Number_toString : float -> string) : Prop :=
  forall (s : LiveState) (k : nat) (r : FetchOutcome) (now : float),
    onLivePage s = true -> liveRunning s = true ->
    requestOutstanding k s = true ->
    let s1 := step measureText Number_toString s ClickStopLive in
    overlay (step measureText Number_toString s1 (FetchSettles k r now))
    = overlay s1.

(** *** Well-formed sessions and orderly executions *)

(** A call of startLive that has not reached line 176 yet. *)
Definition isStart (p : Pending) : bool :=
  match p with
  | AwaitGetUserMedia _ | AwaitPlay _ => true
  | _ => false
  end.

(** A call of startLive that waits for [play()]. *)
Definition isPlay (p : Pending) : bool :=
  match p with
  | AwaitPlay _ => true
  | _ => false
  end.

Definition countPending (f : Pending -> bool) (ps : list (nat * Pending)) : nat :=
  List.length (filter (fun kp => f (snd kp)) ps).

Definition startsPending (s : LiveState) : nat := countPending isStart (pending s).
Definition playsPending (s : LiveState) : nat := countPending isPlay (pending s).

(** The session is idle: stopped, with no timer active at all, no track
    capturing at all, and no start in progress. *)
Definition idle (s : LiveState) : bool :=
  stopped s
  && match timers s with [] => true | _ => false end
  && match liveTracks s with [] => true | _ => false end
  && Nat.eqb (startsPending s) 0.

(** The keys of the parked continuations are distinct and below the next
    key. *)
Definition keysFresh (s : LiveState) : Prop :=
  NoDup (map fst (pending s))
  /\ Forall (fun kp => fst kp < nextPending s) (pending s).

(** The events of a user who lets a start finish before clicking Start
    Live again and stays on the live page while a session is starting or
    running, with a video element that plays. *)
Definition orderly (s : LiveState) (e : Event) : bool :=
  match e with
  | ClickStartLive => Nat.eqb (startsPending s) 0
  | ClickNav _ => negb (liveRunning s) && Nat.eqb (startsPending s) 0
  | PlaySettles _ ok _ => ok
  | _ => true
  end.

(** Every event of the execution is orderly in the state it happens in. *)
Fixpoint orderlyRun (measureText : string -> float)
    (Number_toString : float -> string) (es : list Event) (s : LiveState)
    : bool :=
  match es with
  | [] => true
  | e :: es' =>
      orderly s e
      && orderlyRun measureText Number_toString es'
           (step measureText Number_toString s e)
  end.

(** The invariant of orderly executions: the timer and the device are
    those stopLive reaches, at most one start is in progress and only while
    the session is not running, a stopped session has no timer, and holds
    no track unless [play()] is awaited, and a session that runs or starts
    is on the live page, where the video element is mounted. *)
Record SessionInv (s : LiveState) : Prop := mkSessionInv {
  inv_owned : timerOwned s = true;
  inv_device : deviceAttached s = true;
  inv_keys : keysFresh s;
  inv_starts : startsPending s <= 1;
  inv_starting : startsPending s = 1 -> liveRunning s = false;
  inv_stopped : liveRunning s = false -> timers s = [] /\ intervalRef s = None;
  inv_released :
    liveRunning s = false -> playsPending s = 0 -> liveTracks s = [];
  inv_page : liveRunning s = true \/ startsPending s = 1 -> onLivePage s = true;
  inv_mounted : onLivePage s = true -> videoRef s <> None
}.

(** *** A sample session and sample files *)

(** The detection of the end-to-end scenario. *)
Definition person85 : Detection :=
  mkDetection (mkBox 100%float 50%float 200%float 150%float) "person" 0.85%float.

(** A text metric for the examples: seven pixels per character. *)
Definition sampleMeasureText (label : string) : float :=
  PrimFloat.mul 7%float (JS.of_Z (Z.of_nat (String.length label))).

(** [Number::toString] for the examples; never reached below [1e21]. *)
Definition sampleToString (x : float) : string := "1e+21".

(** To the live page, Start Live, camera granted with one track, playback
    started. *)
Definition startedSession : list Event :=
  [ ClickNav PageLive; ClickStartLive;
    GetUserMediaSettles 0 (Some [0%nat]) 1%float;
    PlaySettles 1 true 1%float ].

(** ... and the video has buffered 640 by 480 frames. *)
Definition runningSession : list Event :=
  startedSession ++ [ VideoLoads 4 640%float 480%float ].

(** ... and the tick of timer 2 has captured a frame and sent it. *)
Definition requestInFlight : list Event :=
  runningSession ++ [ Tick 2%positive; ToBlobCalls 2 (Some []) ].

(** ... and the user goes to the upload page while the request is out. *)
Definition navigatedAway : list Event :=
  requestInFlight ++ [ ClickNav PageUpload ].

(** The session runs, and the user goes to the upload page and back. *)
Definition navigatedBack : list Event :=
  runningSession ++ [ ClickNav PageUpload; ClickNav PageLive ].

(** The state the component is in after the events [es]. *)
Definition sample (es : list Event) : LiveState :=
  run sampleMeasureText sampleToString es initialLive.

(** A JPEG of 1 KiB and a PDF. *)
Definition photo : File := mkFile "photo.jpg" "image/jpeg" 1024.
Definition report : File := mkFile "report.pdf" "application/pdf" 2048.

(** The upload form once the JPEG has been selected. *)
Definition photoSelected : UploadState :=
  handleFileChange [photo] "blob:1" initialUpload.

(* ------------------------------------------------------------------ *)
(** ** The rest of the component *)

(** *** Theme (App.jsx lines 15-20 and 209-214) *)

(** The [theme] cell, the ['theme'] entry of [localStorage] and the
    [data-theme] attribute of the document element. *)
Record ThemeState := mkTheme {
  theme : string;
  storedTheme : option string;
  dataTheme : option string
}.

(** The initializer of the [theme] cell (lines 15-20).  [saved] is
    [localStorage.getItem('theme')]; [matches] is what
    [window.matchMedia('(prefers-color-scheme: dark)').matches] gives,
    [None] where [window.matchMedia] is missing. *)
Definition initialTheme (saved : option string) (matches : option bool) : string :=
  let prefersDark := match matches with Some b => b | None => false end in
  match saved with
  | Some v =>
      if String.eqb v "light" || String.eqb v "dark" then v
      else if prefersDark then "dark" else "light"
  | None => if prefersDark then "dark" else "light"
  end.

(** The effect of lines 209-212. *)
Definition themeEffect (s : ThemeState) : ThemeState :=
  mkTheme (theme s) (Some (theme s)) (Some (theme s)).

(** The component mounts: the initializer, then the effect. *)
Definition mountTheme (saved : option string) (matches : option bool)
    : ThemeState :=
  themeEffect (mkTheme (initialTheme saved matches) saved None).

(** The updater of [toggleTheme] (line 214). *)
Definition toggleTheme (t : string) : string :=
  if String.eqb t "dark" then "light" else "dark".

(** A click on the theme button: the cell is updated and, when its value
    has changed, the effect runs. *)
Definition clickToggleTheme (s : ThemeState) : ThemeState :=
  let t := toggleTheme (theme s) in
  if String.eqb t (theme s) then s
  else themeEffect (mkTheme t (storedTheme s) (dataTheme s)).

(** *** Drag and drop, and the upload form as a whole *)

(** [handleDrag] (App.jsx lines 47-55, App.js lines 15-23) on the
    [dragActive] cell; [type] is [e.type]. *)
Definition handleDrag (type : string) (dragActive : bool) : bool :=
  if String.eqb type "dragenter" || String.eqb type "dragover" then true
  else if String.eqb type "dragleave" then false
  else dragActive.

(** [handleDrop] (App.jsx lines 58-67, App.js lines 26-35); [files] is
    [e.dataTransfer.files]. *)
Definition handleDrop (files : list File) (url : string)
    (s : bool * UploadState) : bool * UploadState :=
  (false,
   match files with
   | droppedFile :: _ => handleFileChange [droppedFile] url (snd s)
   | [] => snd s
   end).

(** The upload form with its drag highlight and the requests that have
    not been answered yet. *)
Record UploadSession := mkSession {
  form : UploadState;
  dragActive : bool;
  awaiting : list File
}.

Definition initialSession : UploadSession := mkSession initialUpload false [].

(** The Detect button is enabled (App.jsx line 376, App.js line 177). *)
Definition detectEnabled (s : UploadState) : bool :=
  match file s with Some _ => negb (loading s) | None => false end.

(** The Reset button is enabled (App.jsx line 369, App.js line 170). *)
Definition resetEnabled (s : UploadState) : bool :=
  match file s, result s with
  | None, None => false
  | _, _ => true
  end.

(** What can happen to the upload form. *)
Inductive UploadEvent :=
| ChooseFiles (files : list File) (url : string)
| DragMoves (type : string)
| DropFiles (files : list File) (url : string)
| ClickDetect
| DetectSettles (r : UploadOutcome)
| ClickReset.

(** One event of the upload form; a click on a disabled button and an
    answer nobody waits for change nothing. *)
Definition uploadStep (s : UploadSession) (e : UploadEvent) : UploadSession :=
  match e with
  | ChooseFiles files url =>
      mkSession (handleFileChange files url (form s)) (dragActive s) (awaiting s)
  | DragMoves type =>
      mkSession (form s) (handleDrag type (dragActive s)) (awaiting s)
  | DropFiles files url =>
      let '(d, f) := handleDrop files url (dragActive s, form s) in
      mkSession f d (awaiting s)
  | ClickDetect =>
      if detectEnabled (form s)
      then mkSession (handleSubmit (form s)) (dragActive s)
             (awaiting s ++ match file (form s) with Some f => [f] | None => [] end)
      else s
  | DetectSettles r =>
      match awaiting s with
      | [] => s
      | _ :: rest =>
          mkSession (handleSubmit_response r (form s)) (dragActive s) rest
      end
  | ClickReset =>
      if resetEnabled (form s)
      then mkSession (handleReset (form s)) (dragActive s) (awaiting s)
      else s
  end.

Definition uploadRun (es : list UploadEvent) (s : UploadSession) : UploadSession :=
  fold_left uploadStep es s.

(** *** The result view *)

(** [detection.class.replace(/_/g, ' ')] (App.jsx line 408, App.js line
    221). *)
Fixpoint displayClass (c : string) : string :=
  match c with
  | EmptyString => EmptyString
  | String a rest =>
      String (if Ascii.eqb a "_" then " "%char else a) (displayClass rest)
  end.

(** *** Requests of the live session *)

(** A detection request of the live session that has not been answered. *)
Definition isFetch (p : Pending) : bool :=
  match p with
  | AwaitFetch _ _ _ _ _ => true
  | _ => false
  end.

Definition requestsOutstanding (s : LiveState) : nat :=
  countPending isFetch (pending s).

(** The schedule of a well-formed session: while it runs there is exactly
    one timer, the one of intervalRef, and once the effect has run for the
    current FPS its delay is the interval of that FPS. *)
Definition scheduled (s : LiveState) : Prop :=
  liveRunning s = true ->
  exists t,
    timers s = [t] /\ intervalRef s = Some (tid t)
    /\ (committed s = true ->
        delay t = tickInterval (liveFps s)
        /\ cl_liveFps (callback t) = liveFps s).

(** *** More sample sessions *)

(** To the live page and Start Live: the camera prompt is open. *)
Definition promptedSession : list Event :=
  [ ClickNav PageLive; ClickStartLive ].

(** ... and the camera is granted: [play()] is awaited. *)
Definition grantedSession : list Event :=
  promptedSession ++ [ GetUserMediaSettles 0 (Some [0%nat]) 1%float ].

(** The FPS slider is moved to 5 while the camera prompt is open. *)
Definition retunedStart : list Event :=
  promptedSession
  ++ [ ChangeFps 5%float; GetUserMediaSettles 0 (Some [0%nat]) 1%float ].

(** A form with the JPEG selected and its detection request out. *)
Definition photoSubmitted : UploadSession :=
  uploadRun [ChooseFiles [photo] "blob:1"; ClickDetect] initialSession.

(** *** Invariants of the theme and of the upload form *)

(** The theme is one of the two, and the effect has stored and applied it. *)
Definition themeSettled (s : ThemeState) : Prop :=
  (theme s = "light" \/ theme s = "dark")
  /\ storedTheme s = Some (theme s)
  /\ dataTheme s = Some (theme s).

(** What every reachable state of the upload form satisfies. *)
Definition uploadInv (s : UploadSession) : Prop :=
  (List.length (awaiting s) <= 1)%nat
  /\ loading (form s) = match awaiting s with [] => false | _ => true end
  /\ Forall (fun f => Spec.acceptable f = true) (sent (form s))
  /\ match file (form s) with
     | Some f => Spec.acceptable f = true
     | None => True
     end.

(* ------------------------------------------------------------------ *)
(** * Properties *)

Local Open Scope list_scope.

(** ** Tick interval *)

Lemma spec_interval_floor (fps : Z) : (100 <= Spec.intervalMs fps)%Z.
Proof. unfold Spec.intervalMs. apply Z.le_max_l. Qed.

Lemma small_fps_cases (fps : Z) :
  (1 <= fps <= 10)%Z ->
  In fps [1; 2; 3; 4; 5; 6; 7; 8; 9; 10]%Z.
Proof.
  intros H. simpl.
  assert (fps = 1 \/ fps = 2 \/ fps = 3 \/ fps = 4 \/ fps = 5 \/ fps = 6
          \/ fps = 7 \/ fps = 8 \/ fps = 9 \/ fps = 10)%Z as C by lia.
  intuition.
Qed.

Lemma tickInterval_table :
  Forall (fun fps => tickInterval (JS.of_Z fps) = JS.of_Z (Spec.intervalMs fps))
    [1; 2; 3; 4; 5; 6; 7; 8; 9; 10]%Z.
Proof. repeat constructor; vm_compute; reflexivity. Qed.

Lemma startLive_run_timers (c : Closure) (s : LiveState) :
  timers (startLive_run c s)
  = timers s ++ [mkTimer (nextTimer s) (tickInterval (cl_liveFps c)) c].
Proof. reflexivity. Qed.

Lemma fpsEffect_running_timers (s : LiveState) :
  liveRunning s = true ->
  timers (fpsEffect s)
  = timers (fpsEffectCleanup s)
    ++ [mkTimer (nextTimer s) (tickInterval (liveFps s)) (currentRender s)].
Proof.
  intros H. unfold fpsEffect, fpsEffectCleanup. rewrite H. simpl.
  destruct (intervalRef s); reflexivity.
Qed.

(** C3: for every integer fps from 1 to 10 the interval the component
    computes, [Math.max(100, Math.round(1000 / Math.max(1, fps)))] on
    doubles, is the integer max(100, round(1000 / max(1, fps))) of the
    specification; it is at least 100; fps 2, 10 and 1 give 500, 100 and
    1000; and this is the delay of the timer startLive creates and of the
    timer the FPS effect creates when it reschedules. *)
Theorem tickInterval_spec (fps : Z) (c : Closure) (s : LiveState)
    (Hfps : (1 <= fps <= 10)%Z) :
  tickInterval (JS.of_Z fps) = JS.of_Z (Spec.intervalMs fps)
  /\ (100 <= Spec.intervalMs fps)%Z
  /\ PrimFloat.leb 100%float (tickInterval (JS.of_Z fps)) = true
  /\ tickInterval 2%float = 500%float
  /\ tickInterval 10%float = 100%float
  /\ tickInterval 1%float = 1000%float
  /\ map delay
       (timers (startLive_run
                  (mkClosure (JS.of_Z fps) (cl_liveConf c) (cl_mirror c)) s))
     = map delay (timers s) ++ [JS.of_Z (Spec.intervalMs fps)]
  /\ map delay
       (timers (fpsEffect (set_liveRunning true (set_liveFps (JS.of_Z fps) s))))
     = map delay (timers (fpsEffectCleanup s)) ++ [JS.of_Z (Spec.intervalMs fps)].
Proof.
  assert (E : tickInterval (JS.of_Z fps) = JS.of_Z (Spec.intervalMs fps)).
  { pose proof tickInterval_table as T.
    rewrite Forall_forall in T. apply T. now apply small_fps_cases. }
  split; [exact E|].
  split; [apply spec_interval_floor|].
  split.
  { apply small_fps_cases in Hfps. simpl in Hfps.
    repeat (destruct Hfps as [<-|Hfps]; [vm_compute; reflexivity|]).
    contradiction. }
  repeat (split; [vm_compute; reflexivity|]).
  split.
  - rewrite startLive_run_timers, map_app. simpl. now rewrite E.
  - rewrite fpsEffect_running_timers by reflexivity.
    rewrite map_app. simpl. rewrite E.
    unfold fpsEffectCleanup. simpl. destruct (intervalRef s); reflexivity.
Qed.

(** ** Confidence colours *)

Lemma getConfidenceColor_tier (confidence : float) :
  getConfidenceColor confidence = Spec.tierColor (Spec.tier confidence).
Proof.
  unfold getConfidenceColor, Spec.tier.
  destruct (PrimFloat.ltb 0.7%float confidence); [reflexivity|].
  destruct (PrimFloat.ltb 0.4%float confidence); reflexivity.
Qed.

Lemma tierColor_injective (t u : Spec.Tier) :
  Spec.tierColor t = Spec.tierColor u -> t = u.
Proof. destruct t, u; simpl; intros H; try reflexivity; discriminate H. Qed.

(** C5: the colour is a function of the bucket alone, the bucket is high
    when [confidence > 0.7], else medium when [confidence > 0.4], else low;
    0.71 is high, 0.70 and 0.41 are medium, 0.40 is low; the three colours
    differ; App.js has the same function; and both the stroke of a live
    overlay box and the bar of the upload result view take their colour
    from it. *)
Theorem getConfidenceColor_buckets
    (conf : float) (measureText : string -> float)
    (Number_toString : float -> string) (mirror : bool) (width : float)
    (det : Detection) (item : ResultDetection) :
  getConfidenceColor conf = Spec.tierColor (Spec.tier conf)
  /\ AppJs.getConfidenceColor conf = getConfidenceColor conf
  /\ Spec.tier conf
     = (if PrimFloat.ltb 0.7%float conf then Spec.High
        else if PrimFloat.ltb 0.4%float conf then Spec.Medium
        else Spec.Low)
  /\ getConfidenceColor 0.71%float = Spec.tierColor Spec.High
  /\ getConfidenceColor 0.70%float = Spec.tierColor Spec.Medium
  /\ getConfidenceColor 0.41%float = Spec.tierColor Spec.Medium
  /\ getConfidenceColor 0.40%float = Spec.tierColor Spec.Low
  /\ Spec.tierColor Spec.High <> Spec.tierColor Spec.Medium
  /\ Spec.tierColor Spec.Medium <> Spec.tierColor Spec.Low
  /\ Spec.tierColor Spec.High <> Spec.tierColor Spec.Low
  /\ hd_error (drawDetection measureText Number_toString mirror width det)
     = (let b := renderedBox mirror width (box det) in
        Some (StrokeRect (Spec.tierColor (Spec.tier (confidence det)))
                2%float (x1 b) (y1 b)
                (PrimFloat.sub (x2 b) (x1 b)) (PrimFloat.sub (y2 b) (y1 b))))
  /\ snd (confidenceBar Number_toString getConfidenceColor item)
     = Spec.tierColor (Spec.tier (rconfidence item))
  /\ snd (confidenceBar Number_toString AppJs.getConfidenceColor item)
     = Spec.tierColor (Spec.tier (rconfidence item)).
Proof.
  split; [apply getConfidenceColor_tier|].
  split; [reflexivity|].
  split; [reflexivity|].
  repeat (split; [vm_compute; reflexivity|]).
  repeat (split; [discriminate|]).
  split.
  { simpl. now rewrite getConfidenceColor_tier. }
  split; simpl; apply getConfidenceColor_tier.
Qed.

(** ** Mirrored rendering *)

Lemma renderedBox_mirror (width : float) (b : DetectionBox) :
  renderedBox true width b
  = mkBox (PrimFloat.sub width (x2 b)) (y1 b) (PrimFloat.sub width (x1 b)) (y2 b).
Proof. reflexivity. Qed.

Lemma drawDetections_painted
    (measureText : string -> float) (Number_toString : float -> string)
    (mirror : bool) (cv : Canvas) (width height : float) (dets : list Detection) :
  drawDetections measureText Number_toString mirror (Some cv) width height dets
  = Some (mkCanvas width height
            (flat_map (drawDetection measureText Number_toString mirror width) dets)).
Proof. reflexivity. Qed.

(** C4: with mirror on, a box is drawn with x1' = width - x2 and
    x2' = width - x1 and with its y-coordinates as they are: every detection
    handed to drawDetections is stroked at (x1', y1) with width x2' - x1'
    and height y2 - y1.  For width 640 and the box (100, 50, 200, 150) of
    class person and confidence 0.85 this is x1' = 440 and x2' = 540, the
    stroke has the high-confidence colour and the label reads
    person 85%. *)
Theorem drawDetections_mirrored
    (measureText : string -> float) (Number_toString : float -> string)
    (cv : Canvas) (width height : float) (dets : list Detection)
    (det : Detection) (Hin : In det dets) :
  let b := box det in
  let x1' := PrimFloat.sub width (x2 b) in
  let x2' := PrimFloat.sub width (x1 b) in
  renderedBox true width b = mkBox x1' (y1 b) x2' (y2 b)
  /\ (exists cv',
        drawDetections measureText Number_toString true (Some cv)
          width height dets = Some cv'
        /\ cwidth cv' = width /\ cheight cv' = height
        /\ In (StrokeRect (getConfidenceColor (confidence det)) 2%float
                 x1' (y1 b) (PrimFloat.sub x2' x1') (PrimFloat.sub (y2 b) (y1 b)))
              (painted cv')
        /\ In (FillText "#000" "14px Arial" (detectionLabel Number_toString det)
                 (PrimFloat.add x1' 4%float)
                 (JS.Math_max 12%float (PrimFloat.sub (y1 b) 4%float)))
              (painted cv'))
  /\ renderedBox true 640%float (box person85)
     = mkBox 440%float 50%float 540%float 150%float
  /\ getConfidenceColor (confidence person85) = Spec.tierColor Spec.High
  /\ detectionLabel Number_toString person85 = "person 85%"
  /\ drawDetections measureText Number_toString true (Some cv)
       640%float 480%float [person85]
     = Some (mkCanvas 640%float 480%float
               [ StrokeRect "#28a745" 2%float 440%float 50%float 100%float 100%float;
                 FillRect "rgba(0, 255, 0, 0.8)" 440%float 30%float
                   (PrimFloat.add (measureText "person 85%") 8%float) 20%float;
                 FillText "#000" "14px Arial" "person 85%" 444%float 46%float ]).
Proof.
  intros b x1' x2'.
  split; [reflexivity|].
  split.
  { eexists. split; [apply drawDetections_painted|]. simpl.
    split; [reflexivity|]. split; [reflexivity|].
    split; apply in_flat_map; exists det; (split; [exact Hin|]);
      unfold drawDetection; simpl; auto. }
  split; [vm_compute; reflexivity|].
  split; [vm_compute; reflexivity|].
  assert (L : detectionLabel Number_toString person85 = "person 85%").
  { vm_compute. reflexivity. }
  split; [exact L|].
  rewrite drawDetections_painted. unfold flat_map, drawDetection.
  rewrite L. vm_compute. reflexivity.
Qed.

(** ** File selection *)

Lemma includes_allowedTypes (t : string) :
  JS.includes allowedTypes t
  = (String.eqb t "image/jpeg" || String.eqb t "image/png"
     || String.eqb t "image/bmp").
Proof.
  unfold allowedTypes. cbn [JS.includes].
  rewrite (String.eqb_sym "image/jpeg" t), (String.eqb_sym "image/png" t),
    (String.eqb_sym "image/bmp" t).
  rewrite orb_false_r. now rewrite orb_assoc.
Qed.

Lemma maxSize_MiB : maxSize = (5 * 2 ^ 20)%Z.
Proof. reflexivity. Qed.

Lemma handleFileChange_verdict (f : File) (rest : list File) (url : string)
    (s : UploadState) :
  handleFileChange (f :: rest) url s
  = match verdict f with
    | BadType => setError invalidTypeMessage s
    | TooLarge => setError tooLargeMessage s
    | Accepted => mkUpload (Some f) url "" (loading s) None (sent s)
    end.
Proof.
  unfold handleFileChange, verdict.
  destruct (negb (JS.includes allowedTypes (ftype f))); [reflexivity|].
  destruct (fsize f >? maxSize)%Z; reflexivity.
Qed.

Lemma verdict_acceptable (f : File) :
  Spec.acceptable f = match verdict f with Accepted => true | _ => false end.
Proof.
  unfold Spec.acceptable, verdict.
  rewrite includes_allowedTypes, maxSize_MiB.
  destruct (String.eqb (ftype f) "image/jpeg" || String.eqb (ftype f) "image/png"
            || String.eqb (ftype f) "image/bmp"); simpl; [|reflexivity].
  rewrite Z.gtb_ltb, Z.leb_antisym.
  destruct (_ <? fsize f)%Z; reflexivity.
Qed.

Lemma AppJs_handleFileChange_same (files : list File) (url : string)
    (s : UploadState) :
  AppJs.handleFileChange files url s = handleFileChange files url s.
Proof. reflexivity. Qed.

(** C9: a selected file whose MIME type is not image/jpeg, image/png or
    image/bmp, or whose size exceeds 5 MiB, is rejected: handleFileChange
    issues no request, shows one of its two messages in the error line and
    does not take the file, so that a later submit sends at most the file
    selected before; a file that meets both constraints is taken and the
    error line is cleared.  App.js and App.jsx agree. *)
Theorem handleFileChange_validates (f : File) (rest : list File)
    (url : string) (s : UploadState) :
  let s' := handleFileChange (f :: rest) url s in
  AppJs.handleFileChange (f :: rest) url s = s'
  /\ sent s' = sent s
  /\ (if Spec.acceptable f
      then file s' = Some f /\ errorBanner s' = None
      else file s' = file s
           /\ (errorBanner s' = Some invalidTypeMessage
               \/ errorBanner s' = Some tooLargeMessage)
           /\ sent (handleSubmit s')
              = sent s ++ match file s with Some g => [g] | None => [] end
           /\ sent (AppJs.handleSubmit s') = sent (handleSubmit s')).
Proof.
  intros s'. subst s'.
  split; [apply AppJs_handleFileChange_same|].
  rewrite handleFileChange_verdict, verdict_acceptable.
  destruct (verdict f); simpl; split; try reflexivity.
  - split; [reflexivity|]. split; [left; reflexivity|].
    unfold handleSubmit, AppJs.handleSubmit. simpl.
    destruct (file s); simpl; split; try reflexivity.
    now rewrite app_nil_r.
  - split; [reflexivity|]. split; [right; reflexivity|].
    unfold handleSubmit, AppJs.handleSubmit. simpl.
    destruct (file s); simpl; split; try reflexivity.
    now rewrite app_nil_r.
  - split; reflexivity.
Qed.

(** C10: with a file already selected, a selection that fails the type or
    the size check changes the error message and nothing else (file,
    preview, result, loading flag and requests are as before); a selection
    that passes replaces file and preview and clears error and result. *)
Theorem handleFileChange_atomic (f g : File) (rest : list File)
    (url : string) (s : UploadState) (Hprev : file s = Some g) :
  let s' := handleFileChange (f :: rest) url s in
  AppJs.handleFileChange (f :: rest) url s = s'
  /\ (if Spec.acceptable f
      then s' = mkUpload (Some f) url "" (loading s) None (sent s)
      else s' = setError (error s') s
           /\ error s' <> ""
           /\ file s' = Some g
           /\ preview s' = preview s
           /\ result s' = result s
           /\ loading s' = loading s
           /\ sent s' = sent s).
Proof.
  intros s'. subst s'.
  split; [apply AppJs_handleFileChange_same|].
  rewrite handleFileChange_verdict, verdict_acceptable.
  destruct (verdict f); simpl; try reflexivity;
    (split; [reflexivity|]); (split; [discriminate|]);
    rewrite Hprev; repeat split.
Qed.

(** ** React bookkeeping *)

Lemma Object_is_refl (x : float) : JS.Object_is x x = true.
Proof. apply FloatAxioms.Leibniz.eqb_spec. reflexivity. Qed.

Lemma commit_committed (s : LiveState) : committed s = true -> commit s = s.
Proof. unfold committed, commit. intros ->. reflexivity. Qed.

Lemma fpsEffect_deps (s : LiveState) :
  liveFps (fpsEffect s) = liveFps s /\ liveRunning (fpsEffect s) = liveRunning s.
Proof.
  unfold fpsEffect.
  destruct s as [pg run err mir fps conf tst vid cnv off ivl deps cln tms
                 nxt trk pnd npd lg].
  destruct run, ivl; simpl; split; reflexivity.
Qed.

Lemma committed_commit (s : LiveState) : committed (commit s) = true.
Proof.
  unfold commit.
  destruct (JS.Object_is (fst (effectDeps s)) (liveFps s)
            && Bool.eqb (snd (effectDeps s)) (liveRunning s)) eqn:E.
  - exact E.
  - unfold committed. simpl.
    destruct (fpsEffect_deps (if hasCleanup s then fpsEffectCleanup s else s))
      as [-> ->].
    rewrite Object_is_refl. apply eqb_reflx.
Qed.

(** ** stopLive *)

Lemma stopTracks_eq (ts : list TrackId) (s : LiveState) :
  stopTracks ts s
  = set_log (log s ++ map CallTrackStop ts)
      (set_liveTracks (filter (fun t => negb (hasTrack ts t)) (liveTracks s)) s).
Proof.
  revert s. induction ts as [|t ts IH]; intros s.
  - destruct s; unfold stopTracks, set_log, set_liveTracks; simpl.
    rewrite app_nil_r. f_equal.
    induction liveTracks0 as [|x l IHl]; simpl; [reflexivity|].
    now rewrite IHl at 1.
  - unfold stopTracks in *. simpl. rewrite IH.
    destruct s; unfold set_log, set_liveTracks, record; simpl.
    rewrite <- app_assoc. simpl. f_equal.
    induction liveTracks0 as [|x l IHl]; simpl; [reflexivity|].
    rewrite (Nat.eqb_sym x t).
    destruct (Nat.eqb t x) eqn:E; simpl.
    + rewrite Nat.eqb_sym in E. exact IHl.
    + destruct (hasTrack ts x); simpl; [exact IHl|].
      f_equal. exact IHl.
Qed.

(** stopLive, field by field. *)
Lemma stopLive_eq (s : LiveState) :
  stopLive s
  = mkLive (page s) false (liveError s) (mirror s) (liveFps s) (liveConf s)
      (toasts s) (videoAfterStop s) (canvasAfterStop s) (offscreenCanvasRef s)
      None (effectDeps s) (hasCleanup s) (timersAfterStop s) (nextTimer s)
      (filter (fun t => negb (hasTrack (attachedTracks s) t)) (liveTracks s))
      (pending s) (nextPending s) (log s ++ callsOfStop s).
Proof.
  assert (F : forall l : list TrackId,
             filter (fun t => negb (hasTrack [] t)) l = l).
  { induction l as [|x l IHl]; simpl; [reflexivity|]. f_equal. exact IHl. }
  unfold stopLive, videoAfterStop, canvasAfterStop, timersAfterStop,
    callsOfStop, attachedTracks.
  destruct s as [pg run err mir fps conf tst vid cnv off ivl deps cln tms
                 nxt trk pnd npd lg].
  destruct ivl as [id|], vid as [[[stream|] rs vw vh]|], cnv as [[cw ch ops]|];
    simpl; rewrite ?stopTracks_eq; simpl;
    rewrite ?F, ?app_nil_r, <- ?app_assoc; reflexivity.
Qed.

Lemma filter_no_tracks (l : list TrackId) :
  filter (fun t => negb (hasTrack [] t)) l = l.
Proof. induction l as [|x l IHl]; simpl; [reflexivity|]. f_equal. exact IHl. Qed.

Lemma stopped_not_capturing (ts l : list TrackId) :
  existsb
    (fun t => existsb (Nat.eqb t) (filter (fun t' => negb (hasTrack ts t')) l))
    ts = false.
Proof.
  apply not_true_is_false. intros H.
  apply existsb_exists in H. destruct H as (t & Hin & H).
  apply existsb_exists in H. destruct H as (t' & Hin' & E).
  apply Nat.eqb_eq in E. subst t'.
  apply filter_In in Hin'. destruct Hin' as [_ Hn].
  assert (hasTrack ts t = true) as Ht.
  { apply existsb_exists. exists t. split; [exact Hin|apply Nat.eqb_refl]. }
  rewrite Ht in Hn. discriminate Hn.
Qed.

Lemma cleared_not_active (id : TimerId) (l : list Timer) :
  existsb (fun t => Pos.eqb (tid t) id)
    (filter (fun t => negb (Pos.eqb (tid t) id)) l) = false.
Proof.
  induction l as [|t l IH]; simpl; [reflexivity|].
  destruct (Pos.eqb (tid t) id) eqn:E; simpl; [exact IH|].
  rewrite E. exact IH.
Qed.

Lemma stopLive_at_rest (j : LiveState) : stopped j = true -> stopLive j = j.
Proof.
  intros Hj. rewrite stopLive_eq. unfold stopped, overlay in Hj.
  destruct j as [pg run err mir fps conf tst vid cnv off ivl deps cln tms
                 nxt trk pnd npd lg].
  unfold videoAfterStop, canvasAfterStop, timersAfterStop, callsOfStop,
    attachedTracks.
  simpl in *.
  destruct run; [discriminate Hj|].
  destruct ivl; [discriminate Hj|].
  destruct vid as [[[stream|] rs vw vh]|]; try discriminate Hj;
    destruct cnv as [[cw ch [|op ops]]|]; try discriminate Hj; simpl;
    rewrite filter_no_tracks, app_nil_r; reflexivity.
Qed.

Lemma stopLive_detached (s : LiveState) : attachedTracks (stopLive s) = [].
Proof.
  rewrite stopLive_eq. unfold attachedTracks, videoAfterStop. simpl.
  destruct (videoRef s) as [[[stream|] rs vw vh]|]; reflexivity.
Qed.

Lemma stopLive_overlay (s : LiveState) : overlay (stopLive s) = [].
Proof.
  rewrite stopLive_eq. unfold overlay, canvasAfterStop. simpl.
  destruct (canvasRef s); reflexivity.
Qed.

Lemma stopLive_stopped (s : LiveState) : stopped (stopLive s) = true.
Proof.
  unfold stopped. rewrite stopLive_overlay.
  rewrite stopLive_eq. unfold videoAfterStop. simpl.
  destruct (videoRef s) as [[[stream|] rs vw vh]|]; reflexivity.
Qed.

Lemma timerOwned_stop (s : LiveState) :
  timerOwned s = true -> timersAfterStop s = [].
Proof.
  unfold timerOwned, timersAfterStop.
  destruct (timers s) as [|t [|u l]], (intervalRef s) as [id|];
    simpl; intros H; try reflexivity; try discriminate H.
  now rewrite H.
Qed.

Lemma deviceAttached_stop (s : LiveState) :
  deviceAttached s = true ->
  filter (fun t => negb (hasTrack (attachedTracks s) t)) (liveTracks s) = [].
Proof.
  unfold deviceAttached, hasTrack.
  induction (liveTracks s) as [|t l IH]; simpl; intros H; [reflexivity|].
  apply andb_prop in H. destruct H as [Ht Hl].
  rewrite Ht. simpl. now apply IH.
Qed.

(** X19: stopLive is idempotent.  On a stopped session it changes nothing;
    whatever the state it is called in, the state it returns is stopped, so
    that a second consecutive call changes nothing and makes no call to
    clearInterval or to a track's stop.  The first call leaves the session
    not running, clears the timer whose id intervalRef holds and the ref,
    stops the tracks of the stream on the mounted video element and
    detaches it, and clears the overlay; the timers and the capturing
    tracks it leaves are those it could not reach through the two refs. *)
Theorem stopLive_idempotent (s i : LiveState) (Hstopped : stopped i = true) :
  let s' := stopLive s in
  stopLive i = i
  /\ stopped s' = true
  /\ stopLive s' = s'
  /\ callsOfStop s' = []
  /\ liveRunning s' = false
  /\ intervalRef s' = None
  /\ timers s' = timersAfterStop s
  /\ match intervalRef s with
     | Some id => timerActive id s' = false
     | None => timers s' = timers s
     end
  /\ attachedTracks s' = []
  /\ liveTracks s'
     = filter (fun t => negb (hasTrack (attachedTracks s) t)) (liveTracks s)
  /\ capturing (attachedTracks s) s' = false
  /\ overlay s' = [].
Proof.
  intros s'. subst s'.
  split; [exact (stopLive_at_rest i Hstopped)|].
  split; [apply stopLive_stopped|].
  split; [apply stopLive_at_rest, stopLive_stopped|].
  split.
  { unfold callsOfStop. rewrite stopLive_detached.
    rewrite stopLive_eq. reflexivity. }
  split; [rewrite stopLive_eq; reflexivity|].
  split; [rewrite stopLive_eq; reflexivity|].
  split; [rewrite stopLive_eq; reflexivity|].
  split.
  { rewrite stopLive_eq. unfold timerActive, timersAfterStop. simpl.
    destruct (intervalRef s); [apply cleared_not_active|reflexivity]. }
  split; [apply stopLive_detached|].
  split; [rewrite stopLive_eq; reflexivity|].
  split; [|apply stopLive_overlay].
  rewrite stopLive_eq. unfold capturing. simpl.
  apply stopped_not_capturing.
Qed.

Lemma startsPending_resume_le (k : nat) (s : LiveState) :
  startsPending (resume k s) <= startsPending s.
Proof.
  unfold startsPending, countPending, resume. destruct s; simpl.
  induction pending0 as [|[k' p] ps IH]; simpl; [lia|].
  destruct (Nat.eqb k' k); simpl; destruct (isStart p); simpl; lia.
Qed.

Lemma startsPending_suspend (p : Pending) (s : LiveState) :
  isStart p = false -> startsPending (suspend p s) = startsPending s.
Proof.
  intros H. unfold startsPending, countPending, suspend. destruct s; simpl.
  rewrite filter_app, length_app. simpl. rewrite H. simpl. lia.
Qed.

(** In a session whose active timers are at most the one intervalRef
    holds, whose capturing tracks all belong to the stream on the mounted
    video element and in which no start is in progress, stopLive leaves the
    session idle. *)
Lemma stopLive_idle (s : LiveState) :
  timerOwned s = true -> deviceAttached s = true -> startsPending s = 0 ->
  idle (stopLive s) = true.
Proof.
  intros Ho Hd Hs. unfold idle. rewrite stopLive_stopped.
  rewrite stopLive_eq. unfold startsPending. simpl.
  rewrite (timerOwned_stop s Ho), (deviceAttached_stop s Hd).
  unfold startsPending in Hs. rewrite Hs. reflexivity.
Qed.

(** ** Ticks *)

Section LiveProperties.

Variable measureText : string -> float.
Variable Number_toString : float -> string.

(** C8: a tick that finds the video element with [readyState < 2] returns
    at once: processLiveFrame gives back the state it was called in, and so
    does the whole tick of any timer (handler and commit), so that the
    running flag, the toasts, the parked continuations (no toBlob, no
    fetch), the call log and the overlay are what they were. *)
Theorem notReady_tick_skipped (id : TimerId) (c : Closure) (s : LiveState)
    (video : Video)
    (Hvideo : videoRef s = Some video)
    (Hnr : (readyState video < 2)%Z)
    (Hc : committed s = true) :
  let s' := step measureText Number_toString s (Tick id) in
  processLiveFrame c s = s
  /\ s' = s
  /\ liveRunning s' = liveRunning s
  /\ toasts s' = toasts s
  /\ pending s' = pending s
  /\ log s' = log s
  /\ overlay s' = overlay s.
Proof.
  assert (P : forall c', processLiveFrame c' s = s).
  { intros c'. unfold processLiveFrame. rewrite Hvideo.
    apply Z.ltb_lt in Hnr. now rewrite Hnr. }
  assert (S : step measureText Number_toString s (Tick id) = s).
  { unfold step, handle.
    destruct (find (fun t => Pos.eqb (tid t) id) (timers s)) as [t|];
      rewrite ?P; now apply commit_committed. }
  intros s'. subst s'. rewrite S. repeat split. apply P.
Qed.

(** ** A failed detection request *)

(** The commit that follows a handler which left the session stopped. *)
Lemma commit_stopped (s : LiveState) :
  liveRunning s = false -> intervalRef s = None ->
  commit s
  = if committed s then s
    else set_effectDeps (liveFps s, false) (set_hasCleanup false s).
Proof.
  intros Hr Hi. unfold commit, committed, fpsEffect, fpsEffectCleanup.
  destruct s as [pg run err mir fps conf tst vid cnv off ivl deps cln tms
                 nxt trk pnd npd lg].
  simpl in *. subst run ivl.
  destruct (JS.Object_is (fst deps) fps && Bool.eqb (snd deps) false);
    [reflexivity|].
  destruct cln; reflexivity.
Qed.

(** X20: a failed request in a well-formed session.  When the request of a tick
    fails (fetch rejects, the body does not parse, or the response is not
    ok) while the session runs with its timer held in intervalRef, its
    capturing tracks on the stream of the mounted video element and no
    start in progress, the session ends idle: it is not running, no timer
    is active, the ref is cleared, no track is capturing, the stream is
    detached, the overlay is clear, and exactly one toast, the live
    detection error, has been added. *)
Theorem failed_request_stops_session (s : LiveState) (k : nat)
    (r : FetchOutcome) (now : float)
    (Hrun : liveRunning s = true)
    (Hreq : requestOutstanding k s = true)
    (Hfail : failed r = true)
    (Hown : timerOwned s = true)
    (Hdev : deviceAttached s = true)
    (Hstarts : startsPending s = 0) :
  let s' := step measureText Number_toString s (FetchSettles k r now) in
  liveRunning s' = false
  /\ timers s' = []
  /\ intervalRef s' = None
  /\ liveTracks s' = []
  /\ attachedTracks s' = []
  /\ overlay s' = []
  /\ idle s' = true
  /\ toasts s' = toasts s ++ [mkToast now "Live detection error." "error"]
  /\ List.length (toasts s') = S (List.length (toasts s)).
Proof.
  intros s'.
  set (s2 := showToast now "Live detection error." "error"
               (record CallConsoleError (resume k s))).
  assert (E : handle measureText Number_toString (FetchSettles k r now) s = stopLive s2).
  { unfold handle. unfold requestOutstanding in Hreq.
    destruct (lookupPending k (pending s)) as [[ | | |c w h conf body| ]|];
      try discriminate Hreq.
    unfold processLiveFrame_response.
    destruct r as [ | |[|] dets]; try discriminate Hfail; reflexivity. }
  assert (P : startsPending s2 = 0).
  { pose proof (startsPending_resume_le k s) as Hle.
    subst s2. unfold showToast. rewrite startsPending_suspend by reflexivity.
    unfold startsPending in *. simpl in *. lia. }
  assert (I : idle (stopLive s2) = true).
  { apply stopLive_idle; [exact Hown|exact Hdev|exact P]. }
  assert (T : timers (stopLive s2) = []).
  { rewrite stopLive_eq. simpl. now apply (timerOwned_stop s). }
  assert (D : liveTracks (stopLive s2) = []).
  { rewrite stopLive_eq. simpl. now apply (deviceAttached_stop s). }
  pose proof (stopLive_detached s2) as A.
  pose proof (stopLive_overlay s2) as O.
  assert (N : toasts (stopLive s2)
              = toasts s ++ [mkToast now "Live detection error." "error"]).
  { rewrite stopLive_eq. reflexivity. }
  assert (C : s' = stopLive s2
              \/ s' = set_effectDeps (liveFps (stopLive s2), false)
                        (set_hasCleanup false (stopLive s2))).
  { subst s'. unfold step. rewrite E.
    rewrite commit_stopped by (rewrite stopLive_eq; reflexivity).
    destruct (committed (stopLive s2)); [left|right]; reflexivity. }
  assert (L : List.length (toasts s ++ [mkToast now "Live detection error." "error"])
              = S (List.length (toasts s))).
  { rewrite length_app. simpl. lia. }
  assert (G : liveRunning s' = liveRunning (stopLive s2)
              /\ timers s' = timers (stopLive s2)
              /\ intervalRef s' = intervalRef (stopLive s2)
              /\ liveTracks s' = liveTracks (stopLive s2)
              /\ attachedTracks s' = attachedTracks (stopLive s2)
              /\ overlay s' = overlay (stopLive s2)
              /\ idle s' = idle (stopLive s2)
              /\ toasts s' = toasts (stopLive s2)).
  { destruct C as [-> | ->]; repeat split; reflexivity. }
  destruct G as (G1 & G2 & G3 & G4 & G5 & G6 & G7 & G8).
  rewrite G1, G2, G3, G4, G5, G6, G7, G8, N.
  repeat split; try assumption; rewrite stopLive_eq; reflexivity.
Qed.

(** ** Stopping with a request in flight *)

Lemma committed_same_deps (s t : LiveState) :
  liveFps t = liveFps s -> liveRunning t = liveRunning s ->
  effectDeps t = effectDeps s -> committed t = committed s.
Proof. unfold committed. now intros -> -> ->. Qed.

(** The click on Stop Live: stopLive, and a commit that touches the effect
    bookkeeping only. *)
Lemma stop_click (s : LiveState) :
  onLivePage s = true -> liveRunning s = true ->
  let s1 := step measureText Number_toString s ClickStopLive in
  committed s1 = true
  /\ (s1 = stopLive s
      \/ s1 = set_effectDeps (liveFps s, false) (set_hasCleanup false (stopLive s))).
Proof.
  intros Hp Hr s1. split; [apply committed_commit|].
  subst s1. unfold step, handle. rewrite Hp, Hr. simpl.
  rewrite commit_stopped by (rewrite stopLive_eq; reflexivity).
  destruct (committed (stopLive s)); [left; reflexivity|right].
  rewrite stopLive_eq. reflexivity.
Qed.

(** C1, as the component has it: after Stop Live, in a session whose timer
    is the one held in intervalRef, no timer is active and a tick of any
    timer id does nothing, and the overlay is clear; the request that was
    outstanding stays outstanding, and when its answer arrives and is ok
    its detections are drawn onto the overlay by drawDetections, with the
    mirror setting the sending tick had closed over: no token is checked.
    The session stays stopped and without timers. *)
Theorem stop_then_late_response (s : LiveState) (k : nat) (c : Closure)
    (w h conf : float) (body : Blob) (dets : option (list Detection))
    (now : float) (id : TimerId)
    (Hpage : onLivePage s = true)
    (Hrun : liveRunning s = true)
    (Hown : timerOwned s = true)
    (Hreq : lookupPending k (pending s) = Some (AwaitFetch c w h conf body)) :
  let s1 := step measureText Number_toString s ClickStopLive in
  let s2 := step measureText Number_toString s1
              (FetchSettles k (Response true dets) now) in
  timers s1 = []
  /\ step measureText Number_toString s1 (Tick id) = s1
  /\ overlay s1 = []
  /\ requestOutstanding k s1 = true
  /\ canvasRef s2
     = drawDetections measureText Number_toString (cl_mirror c) (canvasRef s1)
         w h (match dets with Some l => l | None => [] end)
  /\ liveRunning s2 = false
  /\ timers s2 = [].
Proof.
  intros s1 s2.
  destruct (stop_click s Hpage Hrun) as [K1 C]. fold s1 in K1, C.
  assert (F : timers s1 = [] /\ pending s1 = pending s
              /\ overlay s1 = [] /\ liveRunning s1 = false).
  { destruct C as [-> | ->]; unfold overlay; rewrite stopLive_eq; simpl;
      rewrite (timerOwned_stop s Hown); repeat split;
      unfold canvasAfterStop; destruct (canvasRef s); reflexivity. }
  destruct F as (T1 & P1 & O1 & R1).
  split; [exact T1|].
  split.
  { unfold step, handle. rewrite T1. simpl. now apply commit_committed. }
  split; [exact O1|].
  split.
  { unfold requestOutstanding. now rewrite P1, Hreq. }
  assert (E : s2 = set_liveError ""
                     (set_canvasRef
                        (drawDetections measureText Number_toString (cl_mirror c)
                           (canvasRef s1) w h
                           (match dets with Some l => l | None => [] end))
                        (resume k s1))).
  { subst s2. unfold step, handle. rewrite P1, Hreq.
    unfold processLiveFrame_response.
    apply commit_committed.
    rewrite <- K1. apply committed_same_deps; reflexivity. }
  rewrite E. simpl. repeat split; assumption.
Qed.

(** ** Reconfiguration while running *)

(** X17: a new FPS value while running: the timer held in intervalRef is
    cleared, and the one timer that is then created has the new interval
    and calls the processLiveFrame of the new render. *)
Lemma changeFps_single_timer (s : LiveState) (v : float) :
  onLivePage s = true -> liveRunning s = true -> timerOwned s = true ->
  committed s = true -> JS.Object_is (liveFps s) v = false ->
  let s' := step measureText Number_toString s (ChangeFps v) in
  timers (fpsEffectCleanup (set_liveFps v s)) = []
  /\ timers s' = [mkTimer (nextTimer s) (tickInterval v)
                    (mkClosure v (liveConf s) (mirror s))]
  /\ intervalRef s' = Some (nextTimer s)
  /\ timerOwned s' = true.
Proof.
  intros Hp Hr Ho Hc Hv s'. subst s'.
  unfold step, handle. rewrite Hp.
  unfold commit, committed, timerOwned, fpsEffect, fpsEffectCleanup in *.
  destruct s as [pg run err mir fps conf tst vid cnv off ivl deps cln tms
                 nxt trk pnd npd lg].
  simpl in *. subst run.
  apply andb_prop in Hc. destruct Hc as [Hd _].
  apply FloatAxioms.Leibniz.eqb_spec in Hd. rewrite Hd, Hv. simpl.
  destruct tms as [|t [|u l]], ivl as [id|]; try discriminate Ho;
    destruct cln; simpl; rewrite ?Ho; simpl; rewrite ?Pos.eqb_refl;
    repeat split; reflexivity.
Qed.

(** A new mirror or confidence value while running: nothing is committed,
    so the timer, and the render its callback has closed over, stay. *)
Lemma changeMirror_keeps_timer (s : LiveState) (b : bool) (v : float) :
  committed s = true ->
  timers (step measureText Number_toString s (ChangeMirror b)) = timers s
  /\ timers (step measureText Number_toString s (ChangeConf v)) = timers s.
Proof.
  intros Hc. unfold step, handle.
  split; (destruct (onLivePage s); [|now rewrite commit_committed]);
    (rewrite commit_committed;
     [reflexivity|rewrite <- Hc; apply committed_same_deps; reflexivity]).
Qed.

End LiveProperties.

(* ------------------------------------------------------------------ *)
(** * A session, event by event *)

(** The end-to-end scenario of the specification: fps 2, mirror on, a
    640 by 480 frame and one detection. *)
Example endToEnd_overlay :
  overlay
    (sample (requestInFlight
             ++ [FetchSettles 3 (Response true (Some [person85])) 5%float]))
  = [ StrokeRect "#28a745" 2%float 440%float 50%float 100%float 100%float;
      FillRect "rgba(0, 255, 0, 0.8)" 440%float 30%float 78%float 20%float;
      FillText "#000" "14px Arial" "person 85%" 444%float 46%float ].
Proof. vm_compute. reflexivity. Qed.

(** The interval at fps 2, the initial setting: 500 ms. *)
Lemma tickInterval_spec_witness :
  (1 <= 2 <= 10)%Z
  /\ tickInterval (JS.of_Z 2) = JS.of_Z (Spec.intervalMs 2)
  /\ Spec.intervalMs 2 = 500%Z.
Proof.
  split; [lia|]. split; [|reflexivity].
  destruct (tickInterval_spec 2 (currentRender initialLive) initialLive)
    as [H _]; [lia|exact H].
Defined.

(** The mirrored box of the end-to-end detection on a 640 by 480 frame. *)
Lemma drawDetections_mirrored_witness :
  In person85 [person85]
  /\ renderedBox true 640%float (box person85)
     = mkBox (PrimFloat.sub 640%float (x2 (box person85))) (y1 (box person85))
         (PrimFloat.sub 640%float (x1 (box person85))) (y2 (box person85)).
Proof.
  split; [left; reflexivity|].
  exact (proj1 (drawDetections_mirrored sampleMeasureText sampleToString
                  blankCanvas 640%float 480%float [person85] person85
                  (or_introl eq_refl))).
Defined.

(** With the JPEG selected, selecting the PDF sets the error message and
    nothing else. *)
Lemma handleFileChange_atomic_witness :
  file photoSelected = Some photo
  /\ handleFileChange [report] "blob:2" photoSelected
     = setError invalidTypeMessage photoSelected.
Proof.
  split; [reflexivity|].
  pose proof (handleFileChange_atomic report photo [] "blob:2" photoSelected
                eq_refl) as H.
  cbv zeta in H. destruct H as [_ H].
  change (Spec.acceptable report) with false in H.
  destruct H as [H _]. exact H.
Defined.

(** The initial state is stopped and stopLive leaves it as it is; stopping
    the session that has a request in flight leaves it stopped. *)
Lemma stopLive_idempotent_witness :
  stopped initialLive = true
  /\ stopLive initialLive = initialLive
  /\ stopped (stopLive (sample requestInFlight)) = true.
Proof.
  pose proof (stopLive_idempotent (sample requestInFlight) initialLive eq_refl)
    as H.
  cbv zeta in H. destruct H as (H1 & H2 & _).
  split; [reflexivity|]. split; [exact H1|exact H2].
Defined.

(** The session has started but the video has not buffered a frame yet:
    the tick of timer 2 changes nothing. *)
Lemma notReady_tick_skipped_witness :
  videoRef (sample startedSession)
  = Some (mkVideo (Some [0%nat]) 0 0%float 0%float)
  /\ (0 < 2)%Z
  /\ committed (sample startedSession) = true
  /\ step sampleMeasureText sampleToString (sample startedSession)
       (Tick 2%positive)
     = sample startedSession.
Proof.
  split; [reflexivity|]. split; [reflexivity|]. split; [reflexivity|].
  pose proof (notReady_tick_skipped sampleMeasureText sampleToString
                2%positive (currentRender initialLive)
                (sample startedSession)
                (mkVideo (Some [0%nat]) 0 0%float 0%float)
                eq_refl eq_refl eq_refl) as H.
  cbv zeta in H. destruct H as (_ & H & _). exact H.
Defined.

(** The request in flight is answered with a response that is not ok: the
    session ends idle with one toast. *)
Lemma failed_request_stops_session_witness :
  let s := sample requestInFlight in
  let s' := step sampleMeasureText sampleToString s
              (FetchSettles 3 (Response false None) 5%float) in
  liveRunning s = true
  /\ requestOutstanding 3 s = true
  /\ timerOwned s = true
  /\ deviceAttached s = true
  /\ startsPending s = 0
  /\ idle s' = true
  /\ toasts s' = [mkToast 5%float "Live detection error." "error"].
Proof.
  intros s s'.
  do 5 (split; [reflexivity|]).
  pose proof (failed_request_stops_session sampleMeasureText sampleToString
                s 3 (Response false None) 5%float
                eq_refl eq_refl eq_refl eq_refl eq_refl eq_refl) as H.
  cbv zeta in H. destruct H as (_ & _ & _ & _ & _ & _ & H1 & H2 & _).
  split; [exact H1|exact H2].
Defined.

(** Stop Live with the request in flight: no timer is left and a tick of
    timer 2 changes nothing. *)
Lemma stop_then_late_response_witness :
  let s := sample requestInFlight in
  let s1 := step sampleMeasureText sampleToString s ClickStopLive in
  onLivePage s = true
  /\ liveRunning s = true
  /\ timerOwned s = true
  /\ lookupPending 3 (pending s)
     = Some (AwaitFetch (currentRender initialLive) 640%float 480%float
               0.25%float [])
  /\ timers s1 = []
  /\ step sampleMeasureText sampleToString s1 (Tick 2%positive) = s1.
Proof.
  intros s s1.
  do 4 (split; [reflexivity|]).
  pose proof (stop_then_late_response sampleMeasureText sampleToString
                s 3 (currentRender initialLive) 640%float 480%float
                0.25%float [] (Some [person85]) 5%float 2%positive
                eq_refl eq_refl eq_refl eq_refl) as H.
  cbv zeta in H. destruct H as (H1 & H2 & _).
  split; [exact H1|exact H2].
Defined.

(** C1 as stated fails: the session has a request in flight, Stop Live
    clears the overlay and cancels the timer, and the answer that arrives
    afterwards is drawn. *)
Lemma late_response_is_drawn :
  let s := sample requestInFlight in
  let s1 := step sampleMeasureText sampleToString s ClickStopLive in
  let s2 := step sampleMeasureText sampleToString s1
              (FetchSettles 3 (Response true (Some [person85])) 5%float) in
  requestOutstanding 3 s = true
  /\ liveRunning s1 = false
  /\ timers s1 = []
  /\ overlay s1 = []
  /\ overlay s2
     = [ StrokeRect "#28a745" 2%float 440%float 50%float 100%float 100%float;
         FillRect "rgba(0, 255, 0, 0.8)" 440%float 30%float 78%float 20%float;
         FillText "#000" "14px Arial" "person 85%" 444%float 46%float ]
  /\ ~ discardsLateResults sampleMeasureText sampleToString.
Proof.
  intros s s1 s2.
  repeat (split; [vm_compute; reflexivity|]).
  intros D.
  specialize (D s 3 (Response true (Some [person85])) 5%float
                eq_refl eq_refl eq_refl).
  vm_compute in D. discriminate D.
Qed.

(** C2 on the component: the session runs and a request is out when the
    user goes to the upload page, which takes the video element away; then
    the answer arrives and is not ok.  The catch of processLiveFrame shows
    its toast and calls stopLive, which clears the timer and the running
    flag but, finding no video element, stops no track: track 0 keeps
    capturing, where the claim has the device released. *)
Theorem failed_request_keeps_camera :
  let s := sample navigatedAway in
  let s' := step sampleMeasureText sampleToString s
              (FetchSettles 3 (Response false None) 5%float) in
  liveRunning s = true
  /\ requestOutstanding 3 s = true
  /\ videoRef s = None
  /\ liveTracks s = [0%nat]
  /\ liveRunning s' = false
  /\ timers s' = []
  /\ toasts s' = [mkToast 5%float "Live detection error." "error"]
  /\ liveTracks s' = [0%nat]
  /\ log s' = log s ++ [CallConsoleError; CallClearInterval 2%positive]
  /\ idle s' = false.
Proof.
  intros s s'.
  do 9 (split; [vm_compute; reflexivity|]).
  vm_compute. reflexivity.
Qed.

(** C7 on the component: the session runs, the user goes to the upload
    page and back, which replaces the video element by a new one without a
    stream, and clicks Stop Live.  stopLive clears the timer, the running
    flag and the overlay but, finding no stream on the video element,
    stops no track: track 0 keeps capturing, where the claim has stop()
    from Running release the device and end in Idle. *)
Theorem stop_after_navigation_keeps_camera :
  let s := sample navigatedBack in
  let s' := step sampleMeasureText sampleToString s ClickStopLive in
  liveRunning s = true
  /\ onLivePage s = true
  /\ videoRef s = Some emptyVideo
  /\ liveTracks s = [0%nat]
  /\ liveRunning s' = false
  /\ timers s' = []
  /\ overlay s' = []
  /\ liveTracks s' = [0%nat]
  /\ log s' = log s ++ [CallClearInterval 2%positive]
  /\ idle s' = false
  /\ stopLive s' = s'.
Proof.
  intros s s'.
  do 10 (split; [vm_compute; reflexivity|]).
  vm_compute. reflexivity.
Qed.

(** C6 on the component: in a running session the mirror box is unticked
    and the confidence slider moved to 0.5; the timer is the one that was
    running, and its next tick still asks for conf 0.25 and still draws the
    box mirrored, at x = 440, where the current setting asks for x = 100. *)
Theorem settings_change_not_applied :
  let s0 := sample runningSession in
  let s1 := run sampleMeasureText sampleToString
              [ChangeMirror false; ChangeConf 0.5%float] s0 in
  let s2 := run sampleMeasureText sampleToString
              [Tick 2%positive; ToBlobCalls 2 (Some [])] s1 in
  let s3 := step sampleMeasureText sampleToString s2
              (FetchSettles 3 (Response true (Some [person85])) 5%float) in
  mirror s1 = false
  /\ liveConf s1 = 0.5%float
  /\ timers s1 = timers s0
  /\ map callback (timers s1) = [mkClosure 2%float 0.25%float true]
  /\ last (log s2) CallGetUserMedia = CallFetchLive 0.25%float []
  /\ overlay s3 = drawDetection sampleMeasureText sampleToString true 640%float person85
  /\ hd_error (overlay s3)
     = Some (StrokeRect "#28a745" 2%float 440%float 50%float 100%float 100%float)
  /\ hd_error (drawDetection sampleMeasureText sampleToString (mirror s3)
                 640%float person85)
     = Some (StrokeRect "#28a745" 2%float 100%float 50%float 100%float 100%float).
Proof.
  intros s0 s1 s2 s3.
  repeat (split; [vm_compute; reflexivity|]).
  vm_compute. reflexivity.
Qed.

(* ------------------------------------------------------------------ *)
(** * Orderly executions keep the session well formed *)

Lemma countPending_app (f : Pending -> bool) (ps : list (nat * Pending))
    (k : nat) (p : Pending) :
  countPending f (ps ++ [(k, p)])
  = countPending f ps + (if f p then 1 else 0).
Proof.
  unfold countPending. rewrite filter_app, length_app. simpl.
  destruct (f p); reflexivity.
Qed.

Lemma lookupPending_key_absent (k : nat) (ps : list (nat * Pending)) :
  ~ In k (map fst ps) ->
  filter (fun kp => negb (Nat.eqb (fst kp) k)) ps = ps.
Proof.
  induction ps as [|[k' p'] ps IH]; simpl; intros H; [reflexivity|].
  destruct (Nat.eqb k' k) eqn:E.
  - apply Nat.eqb_eq in E. exfalso. apply H. now left.
  - simpl. f_equal. apply IH. intros Hin. apply H. now right.
Qed.

Lemma countPending_resume (f : Pending -> bool) (k : nat) (p : Pending)
    (ps : list (nat * Pending)) :
  NoDup (map fst ps) -> lookupPending k ps = Some p ->
  countPending f (filter (fun kp => negb (Nat.eqb (fst kp) k)) ps)
  + (if f p then 1 else 0)
  = countPending f ps.
Proof.
  induction ps as [|[k' p'] ps IH]; simpl; intros Hnd Hl; [discriminate Hl|].
  inversion Hnd as [|? ? Hnotin Hnd']; subst.
  destruct (Nat.eqb k' k) eqn:E.
  - injection Hl as ->. apply Nat.eqb_eq in E. subst k'. simpl.
    rewrite lookupPending_key_absent by exact Hnotin.
    unfold countPending. simpl. destruct (f p); simpl; lia.
  - simpl. specialize (IH Hnd' Hl). unfold countPending in *. simpl.
    destruct (f p'); simpl; lia.
Qed.

Lemma keysFresh_suspend (p : Pending) (s : LiveState) :
  keysFresh s -> keysFresh (suspend p s).
Proof.
  unfold keysFresh, suspend. destruct s; simpl. intros [Hnd Hlt]. split.
  - rewrite map_app. simpl. apply NoDup_app; [exact Hnd|repeat constructor; auto|].
    intros x Hx [<-|[]].
    apply in_map_iff in Hx. destruct Hx as ([k q] & <- & Hin).
    rewrite Forall_forall in Hlt. specialize (Hlt _ Hin). simpl in Hlt. lia.
  - apply Forall_app. split.
    + eapply Forall_impl; [|exact Hlt]. simpl. intros; lia.
    + constructor; [simpl; lia|constructor].
Qed.

Lemma keysFresh_resume (k : nat) (s : LiveState) :
  keysFresh s -> keysFresh (resume k s).
Proof.
  unfold keysFresh, resume. destruct s; simpl. intros [Hnd Hlt]. split.
  - clear Hlt. induction pending0 as [|[k' p'] ps IH]; simpl; [constructor|].
    inversion Hnd as [|? ? Hnotin Hnd']; subst.
    destruct (Nat.eqb k' k); simpl; [now apply IH|].
    constructor; [|now apply IH].
    intros Hin. apply Hnotin.
    apply in_map_iff in Hin. destruct Hin as (x & <- & Hx).
    apply filter_In in Hx. apply in_map. tauto.
  - rewrite Forall_forall in *. intros x Hx. apply filter_In in Hx.
    apply Hlt. tauto.
Qed.

Lemma SessionInv_frame (s t : LiveState) :
  page t = page s -> liveRunning t = liveRunning s ->
  videoRef t = videoRef s -> intervalRef t = intervalRef s ->
  timers t = timers s -> liveTracks t = liveTracks s ->
  pending t = pending s -> nextPending t = nextPending s ->
  SessionInv s -> SessionInv t.
Proof.
  destruct s, t; simpl. intros; subst.
  match goal with H : SessionInv _ |- _ => destruct H end.
  constructor; assumption.
Qed.

Lemma SessionInv_initial : SessionInv initialLive.
Proof.
  constructor; try reflexivity.
  - split; constructor.
  - unfold startsPending, countPending. simpl. lia.
  - intros _. split; reflexivity.
  - intros [H|H]; discriminate H.
  - intros H. discriminate H.
Qed.

Lemma plays_le_starts (s : LiveState) : playsPending s <= startsPending s.
Proof.
  unfold playsPending, startsPending, countPending.
  induction (pending s) as [|[k p] ps IH]; simpl; [lia|].
  destruct p; simpl; lia.
Qed.

Lemma SessionInv_stopLive (s : LiveState) :
  SessionInv s -> SessionInv (stopLive s).
Proof.
  intros [Ho Hd Hk Hs Hg Hst Hr Hp Hm].
  rewrite stopLive_eq.
  constructor; unfold timerOwned, deviceAttached, keysFresh, startsPending,
    playsPending, onLivePage in *; simpl.
  - now rewrite (timerOwned_stop s Ho).
  - now rewrite (deviceAttached_stop s Hd).
  - exact Hk.
  - exact Hs.
  - reflexivity.
  - intros _. split; [now apply timerOwned_stop|reflexivity].
  - intros _ _. now apply deviceAttached_stop.
  - intros [H|H]; [discriminate H|]. apply Hp. now right.
  - intros H. specialize (Hm H). unfold videoAfterStop.
    destruct (videoRef s) as [[[stream|] rs vw vh]|]; simpl; congruence.
Qed.

Lemma SessionInv_suspend (p : Pending) (s : LiveState) :
  isStart p = false -> SessionInv s -> SessionInv (suspend p s).
Proof.
  intros Hp [Ho Hd Hk Hs Hg Hst Hr Hpg Hm].
  assert (Hq : isPlay p = false) by (destruct p; try reflexivity; discriminate Hp).
  assert (S1 : startsPending (suspend p s) = startsPending s).
  { unfold startsPending, suspend. destruct s; simpl.
    rewrite countPending_app, Hp. lia. }
  assert (P1 : playsPending (suspend p s) = playsPending s).
  { unfold playsPending, suspend. destruct s; simpl.
    rewrite countPending_app, Hq. lia. }
  constructor; rewrite ?S1, ?P1; try assumption.
  now apply keysFresh_suspend.
Qed.

Lemma SessionInv_resume (k : nat) (p : Pending) (s : LiveState) :
  lookupPending k (pending s) = Some p -> isStart p = false ->
  SessionInv s -> SessionInv (resume k s).
Proof.
  intros Hl Hp [Ho Hd Hk Hs Hg Hst Hr Hpg Hm].
  assert (Hq : isPlay p = false) by (destruct p; try reflexivity; discriminate Hp).
  assert (S1 : startsPending (resume k s) = startsPending s).
  { pose proof (countPending_resume isStart k p (pending s) (proj1 Hk) Hl) as E.
    rewrite Hp in E. unfold startsPending, resume. destruct s; simpl in *. lia. }
  assert (P1 : playsPending (resume k s) = playsPending s).
  { pose proof (countPending_resume isPlay k p (pending s) (proj1 Hk) Hl) as E.
    rewrite Hq in E. unfold playsPending, resume. destruct s; simpl in *. lia. }
  constructor; rewrite ?S1, ?P1; try assumption.
  now apply keysFresh_resume.
Qed.

Lemma SessionInv_showToast (now : float) (msg ty : string) (s : LiveState) :
  SessionInv s -> SessionInv (showToast now msg ty s).
Proof.
  intros H. unfold showToast. apply SessionInv_suspend; [reflexivity|].
  revert H. apply SessionInv_frame; reflexivity.
Qed.

(** The commit keeps the session well formed and leaves it committed. *)
Lemma SessionInv_commit (s : LiveState) :
  SessionInv s -> SessionInv (commit s).
Proof.
  intros I. destruct (liveRunning s) eqn:Hrun.
  - destruct I as [Ho Hd Hk Hs Hg Hst Hr Hpg Hm].
    unfold commit.
    destruct (JS.Object_is (fst (effectDeps s)) (liveFps s)
              && Bool.eqb (snd (effectDeps s)) (liveRunning s));
      [constructor; assumption|].
    assert (E : exists t,
               t = set_effectDeps
                     (liveFps (if hasCleanup s then fpsEffectCleanup s else s),
                      liveRunning (if hasCleanup s then fpsEffectCleanup s else s))
                     (fpsEffect (if hasCleanup s then fpsEffectCleanup s else s))
               /\ page t = page s /\ liveRunning t = true
               /\ videoRef t = videoRef s
               /\ liveTracks t = liveTracks s /\ pending t = pending s
               /\ nextPending t = nextPending s
               /\ timerOwned t = true).
    { eexists. split; [reflexivity|].
      unfold fpsEffect, fpsEffectCleanup, timerOwned in *.
      destruct s as [pg run err mir fps conf tst vid cnv off ivl deps cln tms
                     nxt trk pnd npd lg].
      simpl in *. subst run.
      destruct tms as [|t [|u l]], ivl as [id|]; try discriminate Ho;
        destruct cln; simpl; rewrite ?Ho; simpl; rewrite ?Pos.eqb_refl;
        repeat split; reflexivity. }
    destruct E as (t & <- & E1 & E2 & E3 & E4 & E5 & E6 & E7).
    unfold deviceAttached, attachedTracks, keysFresh, startsPending,
      playsPending, onLivePage in *.
    constructor; unfold deviceAttached, attachedTracks, keysFresh,
      startsPending, playsPending, onLivePage;
      rewrite ?E1, ?E2, ?E3, ?E4, ?E5, ?E6; try assumption.
    + intros H. rewrite (Hg H) in Hrun. discriminate Hrun.
    + intros H. discriminate H.
    + intros H. discriminate H.
    + intros _. apply Hpg. now left.
  - pose proof (inv_stopped s I Hrun) as [_ Hi].
    rewrite (commit_stopped s Hrun Hi).
    destruct (committed s); [exact I|].
    revert I. apply SessionInv_frame; reflexivity.
Qed.

Lemma forallb_hasTrack_self (ts : list TrackId) :
  forallb (fun t => existsb (Nat.eqb t) ts) ts = true.
Proof.
  apply forallb_forall. intros t Hin.
  apply existsb_exists. exists t. split; [exact Hin|apply Nat.eqb_refl].
Qed.

Section Orderly.

Variable measureText : string -> float.
Variable Number_toString : float -> string.

Lemma SessionInv_setPage (p : Page) (s : LiveState) :
  liveRunning s = false -> startsPending s = 0 ->
  SessionInv s -> SessionInv (setPage p s).
Proof.
  intros Hrun Hst0 I.
  assert (Htr : liveTracks s = []).
  { apply (inv_released s I Hrun). pose proof (plays_le_starts s). lia. }
  destruct I as [Ho Hd Hk Hs Hg Hst Hr Hpg Hm].
  unfold setPage.
  destruct (page s) eqn:Epage, p; try (constructor; assumption);
    constructor;
    unfold timerOwned, deviceAttached, keysFresh, startsPending, playsPending,
      onLivePage in *; simpl; rewrite ?Htr; try assumption; try reflexivity.
  - intros _. discriminate.
  - intros [H|H]; [congruence|lia].
  - intros H. discriminate H.
Qed.

Lemma SessionInv_startLive (c : Closure) (s : LiveState) :
  onLivePage s = true -> liveRunning s = false -> startsPending s = 0 ->
  SessionInv s -> SessionInv (startLive c s).
Proof.
  intros Hpage Hrun Hst0 [Ho Hd Hk Hs Hg Hst Hr Hpg Hm].
  assert (S1 : startsPending (startLive c s) = 1).
  { unfold startsPending, startLive, suspend, record in *. destruct s; simpl in *.
    rewrite countPending_app. simpl. lia. }
  assert (P1 : playsPending (startLive c s) = playsPending s).
  { unfold playsPending, startLive, suspend, record in *. destruct s; simpl in *.
    rewrite countPending_app. simpl. lia. }
  constructor; rewrite ?S1, ?P1; try assumption; try lia.
  - unfold startLive. apply keysFresh_suspend. exact Hk.
  - intros _. exact Hrun.
  - intros _. exact Hpage.
Qed.

Lemma SessionInv_startLive_run (c : Closure) (s : LiveState) :
  timers s = [] -> deviceAttached s = true -> keysFresh s ->
  startsPending s = 0 -> onLivePage s = true -> videoRef s <> None ->
  SessionInv (startLive_run c s).
Proof.
  intros Ht Hd Hk Hst0 Hpage Hv.
  unfold startLive_run, setInterval, record.
  constructor;
    unfold timerOwned, deviceAttached, keysFresh, startsPending, playsPending,
      onLivePage in *; simpl; rewrite ?Ht; simpl;
    try assumption; try (intros; discriminate); try lia.
  - apply Pos.eqb_refl.
  - intros _. exact Hpage.
  - intros _. exact Hv.
Qed.

Lemma SessionInv_startLive_stream (c : Closure) (r : option MediaStream)
    (now : float) (s : LiveState) :
  liveRunning s = false -> startsPending s = 0 -> onLivePage s = true ->
  SessionInv s -> SessionInv (startLive_stream c r now s).
Proof.
  intros Hrun Hst0 Hpage I.
  assert (Htr : liveTracks s = []).
  { apply (inv_released s I Hrun). pose proof (plays_le_starts s). lia. }
  pose proof (inv_mounted s I Hpage) as Hv.
  pose proof (inv_stopped s I Hrun) as [Ht Hi].
  destruct r as [stream|]; simpl.
  - destruct I as [Ho Hd Hk Hs Hg Hst Hr Hpg Hm].
    destruct (videoRef s) as [video|] eqn:Ev; [|congruence].
    assert (S1 : forall t, pending t = pending s ->
                 startsPending (suspend (AwaitPlay c) t) = 1).
    { intros t Et. unfold startsPending, suspend in *. destruct t; simpl in *.
      subst. rewrite countPending_app. simpl. lia. }
    assert (P1 : forall t, pending t = pending s ->
                 playsPending (suspend (AwaitPlay c) t) <> 0).
    { intros t Et. unfold playsPending, suspend in *. destruct t; simpl in *.
      subst. rewrite countPending_app. simpl. lia. }
    constructor; rewrite ?S1 by reflexivity; try lia.
    + unfold timerOwned in *. simpl. exact Ho.
    + unfold deviceAttached, attachedTracks. simpl. rewrite Htr. simpl.
      apply forallb_hasTrack_self.
    + apply keysFresh_suspend. exact Hk.
    + intros _. exact Hrun.
    + intros _. simpl. split; assumption.
    + intros _ H. exfalso. revert H. apply P1. reflexivity.
    + intros _. exact Hpage.
    + intros _. simpl. discriminate.
  - unfold startLive_catch.
    assert (J : SessionInv (showToast now "Could not access the webcam." "error" s)).
    { apply SessionInv_showToast. exact I. }
    revert J. apply SessionInv_frame; try reflexivity.
    simpl. now rewrite Hrun.
Qed.

Lemma startsPending_resume (k : nat) (p : Pending) (s : LiveState) :
  SessionInv s -> lookupPending k (pending s) = Some p -> isStart p = true ->
  startsPending (resume k s) = 0 /\ startsPending s = 1
  /\ playsPending (resume k s) = 0.
Proof.
  intros I Hl Hp.
  pose proof (countPending_resume isStart k p (pending s)
                (proj1 (inv_keys s I)) Hl) as E.
  rewrite Hp in E. pose proof (inv_starts s I) as Hle.
  pose proof (plays_le_starts (resume k s)) as Hpl.
  unfold startsPending, resume in *. destruct s; simpl in *. lia.
Qed.

Lemma SessionInv_resume_getUserMedia (k : nat) (c : Closure) (s : LiveState) :
  SessionInv s -> lookupPending k (pending s) = Some (AwaitGetUserMedia c) ->
  SessionInv (resume k s)
  /\ liveRunning (resume k s) = false
  /\ startsPending (resume k s) = 0
  /\ onLivePage (resume k s) = true.
Proof.
  intros I Hl.
  destruct (startsPending_resume k _ s I Hl eq_refl) as (S0 & S1 & P0).
  pose proof (inv_starting s I S1) as Hrun.
  pose proof (inv_page s I (or_intror S1)) as Hpage.
  assert (P1 : playsPending s = 0).
  { pose proof (countPending_resume isPlay k _ (pending s)
                  (proj1 (inv_keys s I)) Hl) as E.
    unfold playsPending, resume in *. destruct s; simpl in *. lia. }
  split; [|repeat split; assumption].
  destruct I as [Ho Hd Hk Hs Hg Hst Hr Hpg Hm].
  constructor; rewrite ?S0, ?P0; try assumption; try lia.
  - now apply keysFresh_resume.
  - intros _ _. now apply Hr.
  - intros _. exact Hpage.
Qed.

Lemma SessionInv_resume_play (k : nat) (c c' : Closure) (s : LiveState) :
  SessionInv s -> lookupPending k (pending s) = Some (AwaitPlay c) ->
  SessionInv (startLive_run c' (resume k s)).
Proof.
  intros I Hl.
  destruct (startsPending_resume k _ s I Hl eq_refl) as (S0 & S1 & P0).
  pose proof (inv_starting s I S1) as Hrun.
  pose proof (inv_page s I (or_intror S1)) as Hpage.
  pose proof (inv_stopped s I Hrun) as [Ht Hi].
  apply SessionInv_startLive_run; try assumption.
  - exact (inv_device s I).
  - apply keysFresh_resume. exact (inv_keys s I).
  - exact (inv_mounted s I Hpage).
Qed.

(** A handler run on a well-formed session in an orderly way leaves it
    well formed. *)
Lemma SessionInv_handle (e : Event) (s : LiveState) :
  SessionInv s -> orderly s e = true ->
  SessionInv (handle measureText Number_toString e s).
Proof.
  intros I Ho.
  destruct e as [p| | |b|v|v|id|k r now|k ok now|k blob|k r now|k|rs w h];
    simpl in *.
  - (* ClickNav *)
    apply andb_prop in Ho. destruct Ho as [Hr Hs].
    apply negb_true_iff in Hr. apply Nat.eqb_eq in Hs.
    now apply SessionInv_setPage.
  - (* ClickStartLive *)
    apply Nat.eqb_eq in Ho.
    destruct (onLivePage s) eqn:Hp; [|exact I].
    destruct (liveRunning s) eqn:Hr; [exact I|]. simpl.
    now apply SessionInv_startLive.
  - (* ClickStopLive *)
    destruct (onLivePage s && liveRunning s); [|exact I].
    now apply SessionInv_stopLive.
  - (* ChangeMirror *)
    destruct (onLivePage s); [|exact I].
    revert I. apply SessionInv_frame; reflexivity.
  - (* ChangeFps *)
    destruct (onLivePage s); [|exact I].
    revert I. apply SessionInv_frame; reflexivity.
  - (* ChangeConf *)
    destruct (onLivePage s); [|exact I].
    revert I. apply SessionInv_frame; reflexivity.
  - (* Tick *)
    destruct (find (fun t => Pos.eqb (tid t) id) (timers s)) as [t|]; [|exact I].
    unfold processLiveFrame.
    destruct (videoRef s) as [video|]; [|exact I].
    destruct (readyState video <? 2)%Z; [exact I|].
    apply SessionInv_suspend; [reflexivity|].
    revert I. apply SessionInv_frame; reflexivity.
  - (* GetUserMediaSettles *)
    destruct (lookupPending k (pending s)) as [[c|c|c w h|c w h conf body|id]|] eqn:Hl;
      try exact I.
    destruct (SessionInv_resume_getUserMedia k c s I Hl) as (I0 & Hr & Hs & Hp).
    now apply SessionInv_startLive_stream.
  - (* PlaySettles *)
    destruct (lookupPending k (pending s)) as [[c|c|c w h|c w h conf body|id]|] eqn:Hl;
      try exact I.
    subst ok. unfold startLive_played.
    now apply (SessionInv_resume_play k c c s).
  - (* ToBlobCalls *)
    destruct (lookupPending k (pending s)) as [[c|c|c w h|c w h conf body|id]|] eqn:Hl;
      try exact I.
    pose proof (SessionInv_resume k _ s Hl eq_refl I) as I0.
    unfold processLiveFrame_blob. destruct blob as [b|]; [|exact I0].
    assert (J : SessionInv (suspend (AwaitFetch c w h (cl_liveConf c) b) (resume k s))).
    { now apply SessionInv_suspend. }
    revert J. apply SessionInv_frame; reflexivity.
  - (* FetchSettles *)
    destruct (lookupPending k (pending s)) as [[c|c|c w h|c w h conf body|id]|] eqn:Hl;
      try exact I.
    pose proof (SessionInv_resume k _ s Hl eq_refl I) as I0.
    assert (F : SessionInv
                  (stopLive (showToast now "Live detection error." "error"
                               (record CallConsoleError (resume k s))))).
    { apply SessionInv_stopLive, SessionInv_showToast.
      revert I0. apply SessionInv_frame; reflexivity. }
    unfold processLiveFrame_response.
    destruct r as [| |[|] dets]; try exact F.
    revert I0. apply SessionInv_frame; reflexivity.
  - (* ToastExpires *)
    destruct (lookupPending k (pending s)) as [[c|c|c w h|c w h conf body|id]|] eqn:Hl;
      try exact I.
    pose proof (SessionInv_resume k _ s Hl eq_refl I) as I0.
    revert I0. apply SessionInv_frame; reflexivity.
  - (* VideoLoads *)
    destruct (videoRef s) as [[[stream|] rs0 vw vh]|] eqn:Ev; try exact I.
    destruct I as [Hown Hd Hk Hs Hg Hst Hr Hpg Hm].
    constructor;
      unfold timerOwned, deviceAttached, attachedTracks, keysFresh,
        startsPending, playsPending, onLivePage in *; simpl;
      rewrite ?Ev in *; simpl in *; try assumption.
    intros _. discriminate.
Qed.

(** One orderly event keeps the session well formed and leaves the effect
    committed. *)
Lemma SessionInv_step (e : Event) (s : LiveState) :
  SessionInv s -> orderly s e = true ->
  SessionInv (step measureText Number_toString s e)
  /\ committed (step measureText Number_toString s e) = true.
Proof.
  intros I Ho. unfold step. split.
  - apply SessionInv_commit. now apply SessionInv_handle.
  - apply committed_commit.
Qed.

Lemma SessionInv_run (es : list Event) (s : LiveState) :
  SessionInv s -> committed s = true -> orderlyRun measureText Number_toString es s = true ->
  SessionInv (run measureText Number_toString es s)
  /\ committed (run measureText Number_toString es s) = true.
Proof.
  revert s. induction es as [|e es IH]; intros s I C Ho; simpl in *.
  - split; assumption.
  - apply andb_prop in Ho. destruct Ho as [He Hes].
    destruct (SessionInv_step e s I He) as [I' C'].
    now apply IH.
Qed.

(** In every orderly execution from the initial state the active timers are
    at most the one intervalRef holds and every capturing track belongs to
    the stream attached to the video: the hypotheses under which the
    properties of stopLive and of a failed request are stated. *)
Theorem orderly_session_well_formed (es : list Event) :
  orderlyRun measureText Number_toString es initialLive = true ->
  let s := run measureText Number_toString es initialLive in
  timerOwned s = true /\ deviceAttached s = true /\ committed s = true.
Proof.
  intros Ho s.
  destruct (SessionInv_run es initialLive SessionInv_initial eq_refl Ho)
    as [I C].
  split; [exact (inv_owned _ I)|]. split; [exact (inv_device _ I)|exact C].
Qed.

End Orderly.

(** The sample session is orderly, and stays so when Stop Live is clicked
    with the request in flight and the answer arrives late. *)
Example sample_session_orderly :
  orderlyRun sampleMeasureText sampleToString
    (requestInFlight
     ++ [ClickStopLive; FetchSettles 3 (Response true (Some [person85])) 5%float])
    initialLive = true.
Proof. vm_compute. reflexivity. Qed.

(** Why [orderly] asks for one start at a time: Start Live clicked twice
    before the camera is granted leaves, after Stop Live, the timer of the
    first start active and the tracks of the first stream capturing. *)
Example double_start_leaks :
  let s := sample [ ClickNav PageLive; ClickStartLive; ClickStartLive;
                    GetUserMediaSettles 0 (Some [0%nat]) 1%float;
                    GetUserMediaSettles 1 (Some [1%nat]) 1%float;
                    PlaySettles 2 true 1%float; PlaySettles 3 true 1%float;
                    ClickStopLive ] in
  liveRunning s = false
  /\ map tid (timers s) = [2%positive]
  /\ liveTracks s = [0%nat]
  /\ timerOwned s = false.
Proof. vm_compute. repeat split; reflexivity. Qed.


(* ------------------------------------------------------------------ *)
(** * Further properties of the component *)

(** ** Theme *)

Lemma toggleTheme_valid (t : string) :
  toggleTheme t = "light" \/ toggleTheme t = "dark".
Proof. unfold toggleTheme. destruct (String.eqb t "dark"); auto. Qed.

Lemma initialTheme_valid (saved : option string) (matches : option bool) :
  initialTheme saved matches = "light" \/ initialTheme saved matches = "dark".
Proof.
  unfold initialTheme.
  destruct saved as [v|], matches as [[|]|]; simpl; auto;
    destruct (String.eqb v "light") eqn:L; simpl;
    try (apply String.eqb_eq in L; auto);
    destruct (String.eqb v "dark") eqn:D; simpl;
    try (apply String.eqb_eq in D; auto); auto.
Qed.

Lemma themeSettled_mount (saved : option string) (matches : option bool) :
  themeSettled (mountTheme saved matches).
Proof.
  unfold themeSettled, mountTheme. simpl.
  split; [apply initialTheme_valid|]. split; reflexivity.
Qed.

Lemma themeSettled_toggle (s : ThemeState) :
  themeSettled s -> themeSettled (clickToggleTheme s).
Proof.
  intros H. unfold clickToggleTheme.
  destruct (String.eqb (toggleTheme (theme s)) (theme s)); [exact H|].
  unfold themeSettled. simpl.
  split; [apply toggleTheme_valid|]. split; reflexivity.
Qed.

Lemma themeSettled_clicks (n : nat) (s : ThemeState) :
  themeSettled s -> themeSettled (Nat.iter n clickToggleTheme s).
Proof.
  intros H. induction n as [|n IH]; simpl; [exact H|].
  now apply themeSettled_toggle.
Qed.

(** X1: whatever was stored before and whatever the system prefers, after
    mounting and any number of clicks on the theme button the theme is
    light or dark, it is what localStorage and the data-theme attribute
    hold, a reload restores it whatever the system then prefers, one click
    changes it and two clicks bring it back. *)
Theorem theme_persisted (saved : option string) (matches matches' : option bool)
    (n : nat) :
  let s := Nat.iter n clickToggleTheme (mountTheme saved matches) in
  (theme s = "light" \/ theme s = "dark")
  /\ storedTheme s = Some (theme s)
  /\ dataTheme s = Some (theme s)
  /\ theme (mountTheme (storedTheme s) matches') = theme s
  /\ theme (clickToggleTheme s) <> theme s
  /\ theme (clickToggleTheme (clickToggleTheme s)) = theme s.
Proof.
  intros s.
  destruct (themeSettled_clicks n _ (themeSettled_mount saved matches))
    as (V & S & D).
  fold s in V, S, D.
  split; [exact V|]. split; [exact S|]. split; [exact D|].
  rewrite S. unfold clickToggleTheme, toggleTheme, mountTheme, initialTheme.
  destruct V as [-> | ->]; simpl; repeat split; try reflexivity; discriminate.
Qed.

(** ** The upload form as a whole *)

Lemma handleFileChange_first (f : File) (rest : list File) (url : string)
    (s : UploadState) :
  handleFileChange (f :: rest) url s = handleFileChange [f] url s.
Proof. reflexivity. Qed.

Lemma handleFileChange_keeps (files : list File) (url : string)
    (s : UploadState) :
  loading (handleFileChange files url s) = loading s
  /\ sent (handleFileChange files url s) = sent s
  /\ (file (handleFileChange files url s) = file s
      \/ exists f, file (handleFileChange files url s) = Some f
                   /\ Spec.acceptable f = true /\ hd_error files = Some f).
Proof.
  destruct files as [|f rest]; [simpl; auto|].
  rewrite handleFileChange_verdict.
  pose proof (verdict_acceptable f) as A.
  destruct (verdict f); simpl; auto.
  repeat split. right. exists f. auto.
Qed.

Lemma uploadInv_selection (s : UploadSession) (files : list File)
    (url : string) (d : bool) :
  uploadInv s ->
  uploadInv (mkSession (handleFileChange files url (form s)) d (awaiting s)).
Proof.
  intros (L & Q & A & F).
  destruct (handleFileChange_keeps files url (form s)) as (H1 & H2 & H3).
  unfold uploadInv. cbn [form awaiting dragActive]. rewrite H1, H2.
  repeat split; try assumption.
  destruct H3 as [-> | (f & -> & Hf & _)]; assumption.
Qed.

Lemma uploadInv_step (s : UploadSession) (e : UploadEvent) :
  uploadInv s -> uploadInv (uploadStep s e).
Proof.
  intros I. pose proof I as (L & Q & A & F).
  destruct e as [files url|type|files url| |r| ]; unfold uploadStep.
  - now apply uploadInv_selection.
  - unfold uploadInv. cbn [form awaiting dragActive]. auto.
  - destruct files as [|f0 rest0]; unfold handleDrop; cbn [snd fst].
    + unfold uploadInv. cbn [form awaiting dragActive]. auto.
    + now apply uploadInv_selection.
  - unfold detectEnabled.
    destruct (file (form s)) as [f|] eqn:Ef; [|exact I].
    destruct (loading (form s)) eqn:El; cbn [negb]; [exact I|].
    destruct (awaiting s) as [|a l] eqn:Ea; [|discriminate Q].
    unfold uploadInv, handleSubmit. rewrite Ef. simpl.
    repeat split; try (rewrite ?Ef; assumption); try lia.
    apply Forall_app. split; [exact A|]. constructor; [exact F|constructor].
  - destruct (awaiting s) as [|a l] eqn:Ea; [exact I|].
    simpl in L. assert (l = []) as -> by (destruct l; [reflexivity|simpl in L; lia]).
    unfold uploadInv. simpl.
    split; [lia|]. split; [reflexivity|].
    destruct r as [m|[|] d data]; simpl; split; assumption.
  - destruct (resetEnabled (form s)); [|exact I].
    unfold uploadInv. simpl. auto.
Qed.

Lemma uploadInv_run (es : list UploadEvent) (s : UploadSession) :
  uploadInv s -> uploadInv (uploadRun es s).
Proof.
  revert s. induction es as [|e es IH]; intros s H; simpl; [exact H|].
  apply IH. now apply uploadInv_step.
Qed.

Lemma uploadInv_initial : uploadInv initialSession.
Proof. unfold uploadInv. simpl. repeat split; auto. Qed.

(** X2: whatever the user does with the upload form (choosing, dragging,
    dropping, clicking Detect or Reset, in any order, with answers arriving
    at any time), at most one detection request is awaiting its answer, the
    loading flag is up exactly while one is, and the Detect button is
    disabled meanwhile. *)
Theorem upload_one_request_in_flight (es : list UploadEvent) :
  let s := uploadRun es initialSession in
  (List.length (awaiting s) <= 1)%nat
  /\ loading (form s) = match awaiting s with [] => false | _ => true end
  /\ match awaiting s with
     | [] => True
     | _ => detectEnabled (form s) = false
     end.
Proof.
  intros s.
  destruct (uploadInv_run es initialSession uploadInv_initial) as (L & Q & _).
  fold s in L, Q.
  split; [exact L|]. split; [exact Q|].
  unfold detectEnabled.
  destruct (awaiting s); [exact I|].
  rewrite Q. destruct (file (form s)); reflexivity.
Qed.

(** X3: whatever the user does with the upload form, every file it has
    sent to the server and the file it holds as selected has one of the
    three accepted MIME types and at most 5 MiB. *)
Theorem upload_sends_only_valid_files (es : list UploadEvent) :
  let s := uploadRun es initialSession in
  Forall (fun f => Spec.acceptable f = true) (sent (form s))
  /\ match file (form s) with
     | Some f => Spec.acceptable f = true
     | None => True
     end.
Proof.
  intros s.
  destruct (uploadInv_run es initialSession uploadInv_initial) as (_ & _ & A & F).
  split; assumption.
Qed.

(** ** Submitting and the answer *)

Lemma orElse_fallback (a b : string) : b <> "" -> orElse a b <> "".
Proof. destruct a; simpl; [auto|discriminate]. Qed.

(** X4: once the answer to a detection request is in, the loading flag is
    down whatever the answer; an ok answer becomes the result and leaves
    the error line as it is; any other answer (not ok, or fetch or
    response.json() throwing) leaves the result as it is and puts a
    message that is not empty in the error line: the server's detail or
    the exception's message when there is one, a fixed text otherwise. *)
Theorem handleSubmit_response_outcome (r : UploadOutcome) (s : UploadState) :
  let s' := handleSubmit_response r s in
  loading s' = false
  /\ file s' = file s /\ preview s' = preview s /\ sent s' = sent s
  /\ match r with
     | UploadResponse true _ data => result s' = Some data /\ error s' = error s
     | UploadResponse false detail _ =>
         result s' = result s /\ error s' <> ""
         /\ error s' = orElse detail "Error detecting objects"
     | UploadThrows message =>
         result s' = result s /\ error s' <> ""
         /\ error s'
            = orElse message "An error occurred while processing the image"
     end.
Proof.
  intros s'. subst s'. unfold handleSubmit_response.
  destruct r as [m|[|] d data]; simpl; repeat split.
  - apply orElse_fallback. discriminate.
  - apply orElse_fallback. discriminate.
  - destruct d; reflexivity.
Qed.

(** ** Drag and drop *)

(** X5: a drop does to the form exactly what choosing the same files does:
    the first dropped file goes through the checks of handleFileChange, the
    other files are ignored and an empty drop changes nothing; and the drag
    highlight is off afterwards. *)
Theorem drop_is_choose (s : UploadSession) (files : list File) (url : string) :
  uploadStep s (DropFiles files url)
  = mkSession (form (uploadStep s (ChooseFiles files url))) false (awaiting s)
  /\ form (uploadStep s (DropFiles files url))
     = handleFileChange (firstn 1 files) url (form s)
  /\ match hd_error files with
     | None => form (uploadStep s (DropFiles files url)) = form s
     | Some f =>
         form (uploadStep s (DropFiles files url))
         = if Spec.acceptable f
           then mkUpload (Some f) url "" (loading (form s)) None (sent (form s))
           else setError (error (form (uploadStep s (DropFiles files url))))
                  (form s)
     end.
Proof.
  destruct files as [|f rest]; repeat split; try reflexivity.
  cbn [hd_error uploadStep handleDrop snd fst form].
  rewrite handleFileChange_verdict, verdict_acceptable.
  destruct (verdict f); reflexivity.
Qed.

(** ** The result view *)

Lemma displayClass_get (c : string) (n : nat) :
  String.get n (displayClass c)
  = option_map (fun a => if Ascii.eqb a "_" then " "%char else a)
      (String.get n c).
Proof.
  revert n. induction c as [|a rest IH]; intros n; simpl; [reflexivity|].
  destruct n as [|n]; simpl; [reflexivity|apply IH].
Qed.

Lemma displayClass_length (c : string) :
  String.length (displayClass c) = String.length c.
Proof. induction c as [|a rest IH]; simpl; [reflexivity|now rewrite IH]. Qed.

(** X6: the class name the result view shows has the length of the class
    name, holds a space wherever the class name holds an underscore and
    the character of the class name everywhere else, and so holds no
    underscore; replacing twice gives the same as replacing once. *)
Theorem displayClass_spaces (c : string) (n : nat) :
  String.length (displayClass c) = String.length c
  /\ String.get n (displayClass c)
     = option_map (fun a => if Ascii.eqb a "_" then " "%char else a)
         (String.get n c)
  /\ String.get n (displayClass c) <> Some "_"%char
  /\ displayClass (displayClass c) = displayClass c.
Proof.
  split; [apply displayClass_length|].
  split; [apply displayClass_get|].
  split.
  - rewrite displayClass_get. destruct (String.get n c) as [a|]; simpl;
      [|discriminate].
    destruct (Ascii.eqb a "_") eqn:E; [discriminate|].
    intros H. injection H as ->. discriminate E.
  - induction c as [|a rest IH]; simpl; [reflexivity|].
    rewrite IH. f_equal.
    destruct (Ascii.eqb a "_") eqn:E; [reflexivity|]. now rewrite E.
Qed.


(** ** The interval, for any FPS value *)

Lemma float_ltb_leb (x y : float) :
  PrimFloat.ltb x y = true -> PrimFloat.leb x y = true.
Proof.
  rewrite ltb_spec, leb_spec. unfold SFltb, SFleb.
  destruct (SFcompare (Prim2SF x) (Prim2SF y)) as [[ | | ]|];
    intros H; try discriminate H; reflexivity.
Qed.

(** X7: whatever number the FPS cell holds, the interval startLive and the
    FPS effect compute is never a number below 100: it is at least 100, or
    it is NaN. *)
Theorem tickInterval_never_below_floor (liveFps : float) :
  PrimFloat.leb 100%float (tickInterval liveFps) = true
  \/ JS.isNaN (tickInterval liveFps) = true.
Proof.
  unfold tickInterval.
  set (y := JS.Math_round
              (PrimFloat.div 1000%float (JS.Math_max 1%float liveFps))).
  unfold JS.Math_max.
  destruct (JS.isNaN 100%float || JS.isNaN y); [right; reflexivity|].
  left.
  destruct (PrimFloat.ltb 100%float y) eqn:L; [now apply float_ltb_leb|].
  destruct (PrimFloat.ltb y 100%float); reflexivity.
Qed.


(** ** More of the live session *)

Lemma lookupPending_fresh (ps : list (nat * Pending)) (k : nat) (p : Pending) :
  Forall (fun kp => fst kp < k) ps ->
  lookupPending k (ps ++ [(k, p)]) = Some p
  /\ filter (fun kp => negb (Nat.eqb (fst kp) k)) (ps ++ [(k, p)]) = ps.
Proof.
  induction ps as [|[k' p'] ps IH]; simpl; intros H.
  - rewrite Nat.eqb_refl. simpl. auto.
  - inversion H as [|? ? Hlt Hrest]; subst. simpl in Hlt.
    assert (Nat.eqb k' k = false) as -> by (apply Nat.eqb_neq; lia).
    simpl. destruct (IH Hrest) as [-> ->]. auto.
Qed.

Section MoreLive.

Variable measureText : string -> float.
Variable Number_toString : float -> string.

(** X8: when [play()] resolves for a start that found the session stopped
    and without timers, the session runs with exactly one timer, and that
    timer is the one the FPS effect creates in the same step: its delay is
    the interval of the FPS cell as it is now, and its callback has closed
    over the settings as they are now, not as they were when Start Live was
    clicked; the timer startLive itself created is no longer active. *)
Theorem start_uses_current_settings (s : LiveState) (k : nat) (c : Closure)
    (now : float)
    (Hplay : lookupPending k (pending s) = Some (AwaitPlay c))
    (Hrun : liveRunning s = false)
    (Htimers : timers s = [])
    (Hc : committed s = true) :
  let s' := step measureText Number_toString s (PlaySettles k true now) in
  liveRunning s' = true
  /\ timers s' = [mkTimer (Pos.succ (nextTimer s)) (tickInterval (liveFps s))
                    (currentRender s)]
  /\ intervalRef s' = Some (Pos.succ (nextTimer s))
  /\ timerActive (nextTimer s) s' = false
  /\ committed s' = true.
Proof.
  intros s'. subst s'.
  split; [|split; [|split; [|split; [|apply committed_commit]]]];
    unfold step, handle; rewrite Hplay;
    unfold startLive_played, startLive_run, setInterval, commit, committed,
      fpsEffect, fpsEffectCleanup, clearInterval, resume, record, timerActive
      in *;
    destruct s as [pg run err mir fps conf tst vid cnv off ivl deps cln tms
                   nxt trk pnd npd lg];
    simpl in *; subst run tms;
    apply andb_prop in Hc; destruct Hc as [Hd He];
    apply eqb_prop in He; destruct deps as [d0 d1]; simpl in *; subst d1;
    rewrite andb_false_r;
    destruct cln; simpl; rewrite ?Pos.eqb_refl; simpl;
    rewrite ?Pos.eqb_refl; simpl; try reflexivity;
    destruct (Pos.eqb (Pos.succ nxt) nxt) eqn:E; try reflexivity;
    apply Pos.eqb_eq in E; lia.
Qed.

(** The catch of startLive on a stopped session, and the commit after it. *)
Lemma startLive_catch_step (s : LiveState) (now : float) :
  liveRunning s = false -> committed s = true ->
  commit (startLive_catch now s)
  = showToast now "Could not access the webcam." "error" s.
Proof.
  intros Hrun Hc.
  assert (E : startLive_catch now s
              = showToast now "Could not access the webcam." "error" s).
  { unfold startLive_catch. destruct s; simpl in *. now subst. }
  rewrite E. apply commit_committed.
  rewrite <- Hc. apply committed_same_deps; reflexivity.
Qed.

(** X9: when the camera is refused (getUserMedia rejects), the start ends
    there: the session is not running, no timer has been created, no track
    and no video source has changed, no call is made, and exactly one
    toast, the webcam error, has been added. *)
Theorem camera_refused (s : LiveState) (k : nat) (c : Closure) (now : float)
    (Hstart : lookupPending k (pending s) = Some (AwaitGetUserMedia c))
    (Hrun : liveRunning s = false)
    (Hc : committed s = true) :
  let s' := step measureText Number_toString s
              (GetUserMediaSettles k None now) in
  liveRunning s' = false
  /\ timers s' = timers s
  /\ intervalRef s' = intervalRef s
  /\ liveTracks s' = liveTracks s
  /\ videoRef s' = videoRef s
  /\ log s' = log s
  /\ toasts s' = toasts s ++ [mkToast now "Could not access the webcam." "error"].
Proof.
  intros s'. subst s'. unfold step, handle. rewrite Hstart.
  unfold startLive_stream.
  rewrite startLive_catch_step;
    [|exact Hrun|rewrite <- Hc; apply committed_same_deps; reflexivity].
  repeat split; try reflexivity. exact Hrun.
Qed.

(** X10: when [play()] rejects, the session is not running, no timer has
    been created and one toast, the webcam error, has been added; the
    stream that getUserMedia had granted stays attached to the video
    element and every track that was capturing still is: startLive's catch
    stops no track. *)
Theorem play_rejected (s : LiveState) (k : nat) (c : Closure) (now : float)
    (Hplay : lookupPending k (pending s) = Some (AwaitPlay c))
    (Hrun : liveRunning s = false)
    (Hc : committed s = true) :
  let s' := step measureText Number_toString s (PlaySettles k false now) in
  liveRunning s' = false
  /\ timers s' = timers s
  /\ intervalRef s' = intervalRef s
  /\ liveTracks s' = liveTracks s
  /\ attachedTracks s' = attachedTracks s
  /\ log s' = log s
  /\ toasts s' = toasts s ++ [mkToast now "Could not access the webcam." "error"].
Proof.
  intros s'. subst s'. unfold step, handle. rewrite Hplay.
  unfold startLive_played.
  rewrite startLive_catch_step;
    [|exact Hrun|rewrite <- Hc; apply committed_same_deps; reflexivity].
  repeat split; try reflexivity. exact Hrun.
Qed.

(** X11: an ok answer to a detection request redraws the overlay from
    nothing: the canvas takes the size of the frame that was sent and holds
    three drawing operations per detection of this answer, in order, with
    the mirror setting of the tick that sent the frame, whatever was on it
    before; a missing detections field draws none.  The running flag, the
    timers, the tracks, the toasts and the call log are as they were. *)
Theorem ok_response_redraws (s : LiveState) (k : nat) (c : Closure)
    (w h conf : float) (body : Blob) (cv : Canvas)
    (dets : option (list Detection)) (now : float)
    (Hreq : lookupPending k (pending s) = Some (AwaitFetch c w h conf body))
    (Hcv : canvasRef s = Some cv)
    (Hc : committed s = true) :
  let s' := step measureText Number_toString s
              (FetchSettles k (Response true dets) now) in
  let ds := match dets with Some l => l | None => [] end in
  canvasRef s'
  = Some (mkCanvas w h
            (flat_map (drawDetection measureText Number_toString (cl_mirror c) w)
               ds))
  /\ List.length (overlay s') = 3 * List.length ds
  /\ liveError s' = ""
  /\ liveRunning s' = liveRunning s
  /\ timers s' = timers s
  /\ intervalRef s' = intervalRef s
  /\ liveTracks s' = liveTracks s
  /\ toasts s' = toasts s
  /\ log s' = log s.
Proof.
  intros s' ds.
  assert (E : s' = set_liveError ""
                     (set_canvasRef
                        (drawDetections measureText Number_toString (cl_mirror c)
                           (canvasRef (resume k s)) w h ds)
                        (resume k s))).
  { subst s'. unfold step, handle. rewrite Hreq.
    unfold processLiveFrame_response.
    apply commit_committed.
    rewrite <- Hc. apply committed_same_deps; reflexivity. }
  assert (C : canvasRef (resume k s) = Some cv) by exact Hcv.
  assert (Len : forall (m : bool) (l : list Detection),
               List.length (flat_map (drawDetection measureText Number_toString m w) l)
               = 3 * List.length l).
  { intros m l. induction l as [|d l IH]; simpl; [reflexivity|].
    simpl in IH. rewrite IH. lia. }
  rewrite E, C. unfold overlay. simpl.
  repeat split; try reflexivity. apply Len.
Qed.


(** X13: a tick is never held back by a request that is still out: on a
    video element that has a frame, the tick of an active timer followed by
    the blob of its frame sends one more detection request, with the
    confidence the timer's callback had closed over and the size of the
    video at the tick, however many requests are awaiting their answer. *)
Theorem tick_sends_regardless (s : LiveState) (id : TimerId) (t : Timer)
    (video : Video) (b : Blob)
    (Hvideo : videoRef s = Some video)
    (Hready : (2 <= readyState video)%Z)
    (Htimer : find (fun t => Pos.eqb (tid t) id) (timers s) = Some t)
    (Hkeys : keysFresh s)
    (Hc : committed s = true) :
  let s1 := step measureText Number_toString s (Tick id) in
  let s2 := step measureText Number_toString s1
              (ToBlobCalls (nextPending s) (Some b)) in
  requestsOutstanding s2 = S (requestsOutstanding s)
  /\ pending s2
     = pending s
       ++ [(S (nextPending s),
            AwaitFetch (callback t) (videoWidth video) (videoHeight video)
              (cl_liveConf (callback t)) b)]
  /\ log s2 = log s ++ [CallFetchLive (cl_liveConf (callback t)) b]
  /\ overlay s2 = overlay s
  /\ toasts s2 = toasts s.
Proof.
  intros s1 s2.
  destruct Hkeys as [_ Hlt].
  destruct (lookupPending_fresh (pending s) (nextPending s)
              (AwaitToBlob (callback t) (videoWidth video) (videoHeight video))
              Hlt) as [Hl Hf].
  assert (E1 : s1 = suspend (AwaitToBlob (callback t) (videoWidth video)
                               (videoHeight video))
                      (set_offscreenCanvasRef
                         (Some (mkOffscreen (videoWidth video) (videoHeight video)))
                         s)).
  { subst s1. unfold step, handle. rewrite Htimer.
    unfold processLiveFrame. rewrite Hvideo.
    assert ((readyState video <? 2)%Z = false) as -> by (apply Z.ltb_ge; lia).
    apply commit_committed.
    rewrite <- Hc. apply committed_same_deps; reflexivity. }
  assert (E2 : s2 = processLiveFrame_blob (callback t) (videoWidth video)
                      (videoHeight video) (Some b) (resume (nextPending s) s1)).
  { subst s2. unfold step, handle.
    assert (pending s1
            = pending s ++ [(nextPending s,
                             AwaitToBlob (callback t) (videoWidth video)
                               (videoHeight video))]) as P1
      by (rewrite E1; reflexivity).
    rewrite P1, Hl. apply commit_committed.
    rewrite <- Hc. rewrite E1. apply committed_same_deps; reflexivity. }
  assert (P2 : pending s2
               = pending s
                 ++ [(S (nextPending s),
                      AwaitFetch (callback t) (videoWidth video) (videoHeight video)
                        (cl_liveConf (callback t)) b)]).
  { rewrite E2, E1. unfold processLiveFrame_blob, resume, suspend, record. simpl.
    now rewrite Hf. }
  split.
  { unfold requestsOutstanding. rewrite P2, countPending_app. simpl. lia. }
  split; [exact P2|].
  rewrite E2, E1. unfold overlay. repeat split; reflexivity.
Qed.

(** X14: ticking or unticking Mirror, or moving the Conf slider, changes
    that one cell and nothing else: no timer is cleared or created, no call
    is made, and the callback of every active timer keeps the settings it
    had closed over. *)
Theorem settings_change_only_cell (s : LiveState) (b : bool) (v : float)
    (Hpage : onLivePage s = true)
    (Hc : committed s = true) :
  step measureText Number_toString s (ChangeMirror b) = set_mirror b s
  /\ step measureText Number_toString s (ChangeConf v) = set_liveConf v s
  /\ map callback (timers (step measureText Number_toString s (ChangeMirror b)))
     = map callback (timers s)
  /\ map callback (timers (step measureText Number_toString s (ChangeConf v)))
     = map callback (timers s).
Proof.
  assert (M : step measureText Number_toString s (ChangeMirror b) = set_mirror b s).
  { unfold step, handle. rewrite Hpage. apply commit_committed.
    rewrite <- Hc. apply committed_same_deps; reflexivity. }
  assert (C : step measureText Number_toString s (ChangeConf v) = set_liveConf v s).
  { unfold step, handle. rewrite Hpage. apply commit_committed.
    rewrite <- Hc. apply committed_same_deps; reflexivity. }
  rewrite M, C. repeat split; reflexivity.
Qed.

End MoreLive.


(** ** The schedule of an orderly session *)

Lemma commit_keeps_deps (s : LiveState) :
  liveFps (commit s) = liveFps s /\ liveRunning (commit s) = liveRunning s.
Proof.
  unfold commit.
  destruct (JS.Object_is (fst (effectDeps s)) (liveFps s)
            && Bool.eqb (snd (effectDeps s)) (liveRunning s)); [auto|].
  simpl.
  destruct (fpsEffect_deps (if hasCleanup s then fpsEffectCleanup s else s))
    as [-> ->].
  unfold fpsEffectCleanup.
  destruct (hasCleanup s), (intervalRef s); auto.
Qed.

(** The commit of a running session whose effect is due: one new timer. *)
Lemma commit_reschedules (s : LiveState) :
  timerOwned s = true -> liveRunning s = true -> committed s = false ->
  timers (commit s)
  = [mkTimer (nextTimer s) (tickInterval (liveFps s)) (currentRender s)]
  /\ intervalRef (commit s) = Some (nextTimer s).
Proof.
  intros Ho Hr Hc.
  unfold commit, committed, timerOwned, fpsEffect, fpsEffectCleanup in *.
  destruct s as [pg run err mir fps conf tst vid cnv off ivl deps cln tms
                 nxt trk pnd npd lg].
  simpl in *. subst run. rewrite Hc.
  destruct tms as [|t [|u l]], ivl as [id|]; try discriminate Ho;
    destruct cln; simpl; rewrite ?Ho; simpl; rewrite ?Pos.eqb_refl;
    split; reflexivity.
Qed.

Lemma committed_fps (s t : LiveState) :
  committed s = true -> committed t = true -> effectDeps t = effectDeps s ->
  liveFps t = liveFps s.
Proof.
  unfold committed. intros Hs Ht E. rewrite E in Ht.
  apply andb_prop in Hs. apply andb_prop in Ht.
  destruct Hs as [Hs _], Ht as [Ht _].
  apply FloatAxioms.Leibniz.eqb_spec in Hs.
  apply FloatAxioms.Leibniz.eqb_spec in Ht. congruence.
Qed.

Section Schedule.

Variable measureText : string -> float.
Variable Number_toString : float -> string.

(** What a handler can do to the schedule of a well-formed session: leave
    it alone, leave the session stopped, or (startLive) leave it running
    with its own timer and the effect due. *)
Lemma handle_shape (e : Event) (s : LiveState) :
  SessionInv s -> orderly s e = true -> committed s = true ->
  let h := handle measureText Number_toString e s in
  (timers h = timers s /\ intervalRef h = intervalRef s
   /\ liveRunning h = liveRunning s /\ effectDeps h = effectDeps s)
  \/ liveRunning h = false
  \/ (liveRunning h = true /\ committed h = false
      /\ exists t, timers h = [t] /\ intervalRef h = Some (tid t)).
Proof.
  intros I Ho Hc h. subst h.
  assert (Run : forall k c c',
             lookupPending k (pending s) = Some c' -> isStart c' = true ->
             let h := startLive_run c (resume k s) in
             liveRunning h = true /\ committed h = false
             /\ exists t, timers h = [t] /\ intervalRef h = Some (tid t)).
  { intros k c c' Hl Hs h.
    destruct (startsPending_resume k c' s I Hl Hs) as (_ & S1 & _).
    pose proof (inv_starting s I S1) as Hrun.
    pose proof (inv_stopped s I Hrun) as [Ht _].
    subst h. unfold startLive_run, setInterval, resume, record, committed in *.
    destruct s as [pg run err mir fps conf tst vid cnv off ivl deps cln tms
                   nxt trk pnd npd lg].
    simpl in *. subst run tms.
    apply andb_prop in Hc. destruct Hc as [_ He].
    apply eqb_prop in He. rewrite He.
    split; [reflexivity|]. split; [apply andb_false_r|].
    eexists. split; reflexivity. }
  destruct e as [p| | |b|v|v|id|k r now|k ok now|k blob|k r now|k|rs w h];
    simpl in *.
  - left. unfold setPage. destruct (page s), p; repeat split; reflexivity.
  - left. destruct (onLivePage s && negb (liveRunning s));
      repeat split; reflexivity.
  - destruct (onLivePage s && liveRunning s); [|left; repeat split; reflexivity].
    right. left. rewrite stopLive_eq. reflexivity.
  - left. destruct (onLivePage s); repeat split; reflexivity.
  - left. destruct (onLivePage s); repeat split; reflexivity.
  - left. destruct (onLivePage s); repeat split; reflexivity.
  - left. destruct (find (fun t => Pos.eqb (tid t) id) (timers s)) as [t|];
      [|repeat split; reflexivity].
    unfold processLiveFrame. destruct (videoRef s) as [video|];
      [|repeat split; reflexivity].
    destruct (readyState video <? 2)%Z; repeat split; reflexivity.
  - destruct (lookupPending k (pending s)) as [[c|c|c w h|c w h conf body|id]|] eqn:Hl;
      try (left; repeat split; reflexivity).
    unfold startLive_stream. destruct r as [stream|].
    + destruct (videoRef (set_liveTracks (liveTracks (resume k s) ++ stream)
                            (resume k s))) as [video|] eqn:Ev.
      * left. repeat split; reflexivity.
      * right. right.
        destruct (Run k c _ Hl eq_refl) as (R1 & R2 & t & R3 & R4).
        split; [exact R1|]. split; [exact R2|]. exists t. split; assumption.
    + right. left. reflexivity.
  - destruct (lookupPending k (pending s)) as [[c|c|c w h|c w h conf body|id]|] eqn:Hl;
      try (left; repeat split; reflexivity).
    subst ok. right. right. exact (Run k c _ Hl eq_refl).
  - left.
    destruct (lookupPending k (pending s)) as [[c|c|c w h|c w h conf body|id]|];
      try (repeat split; reflexivity).
    destruct blob; repeat split; reflexivity.
  - destruct (lookupPending k (pending s)) as [[c|c|c w h|c w h conf body|id]|];
      try (left; repeat split; reflexivity).
    unfold processLiveFrame_response.
    destruct r as [| |[|] dets];
      try (right; left; rewrite stopLive_eq; reflexivity).
    left. repeat split; reflexivity.
  - left.
    destruct (lookupPending k (pending s)) as [[c|c|c w h|c w h conf body|id]|];
      repeat split; reflexivity.
  - left. destruct (videoRef s) as [[[stream|] rs0 vw vh]|];
      repeat split; reflexivity.
Qed.

Lemma scheduled_step (e : Event) (s : LiveState) :
  SessionInv s -> committed s = true -> scheduled s -> orderly s e = true ->
  scheduled (step measureText Number_toString s e).
Proof.
  intros I Hc Hs Ho.
  pose proof (SessionInv_handle measureText Number_toString e s I Ho) as Ih.
  pose proof (handle_shape e s I Ho Hc) as Sh.
  unfold step. set (h := handle measureText Number_toString e s) in *.
  cbv zeta in Sh.
  destruct (commit_keeps_deps h) as [Kf Kr].
  assert (New : liveRunning h = true -> committed h = false ->
                scheduled (commit h)).
  { intros Hr Hn _.
    destruct (commit_reschedules h (inv_owned h Ih) Hr Hn) as [Ht Hi].
    eexists. split; [exact Ht|]. split; [exact Hi|].
    intros _. simpl. rewrite Kf. split; reflexivity. }
  destruct Sh as [(Et & Ei & Er & Ed) | [Hf | (Hr & Hn & _)]].
  - destruct (committed h) eqn:Ch.
    + rewrite (commit_committed h Ch).
      intros Hr. rewrite Er in Hr.
      destruct (Hs Hr) as (t & T1 & T2 & T3).
      exists t. rewrite Et, Ei. split; [exact T1|]. split; [exact T2|].
      intros _. rewrite (committed_fps s h Hc Ch Ed). now apply T3.
    + destruct (liveRunning h) eqn:Hr; [now apply New|].
      intros H. rewrite Kr in H. discriminate H.
  - intros H. rewrite Kr, Hf in H. discriminate H.
  - now apply New.
Qed.

Lemma scheduled_run (es : list Event) (s : LiveState) :
  SessionInv s -> committed s = true -> scheduled s ->
  orderlyRun measureText Number_toString es s = true ->
  scheduled (run measureText Number_toString es s).
Proof.
  revert s. induction es as [|e es IH]; intros s I C S Ho; simpl in *.
  - exact S.
  - apply andb_prop in Ho. destruct Ho as [He Hes].
    destruct (SessionInv_step measureText Number_toString e s I He) as [I' C'].
    apply IH; try assumption. now apply scheduled_step.
Qed.

(** X15: in every orderly execution from the initial state the session
    runs with exactly one active timer, the one intervalRef holds, whose
    delay is the interval of the current FPS and whose callback has closed
    over the current FPS; and while it does not run, no timer is active
    and intervalRef is cleared. *)
Theorem orderly_schedule (es : list Event)
    (Ho : orderlyRun measureText Number_toString es initialLive = true) :
  let s := run measureText Number_toString es initialLive in
  if liveRunning s
  then exists t,
         timers s = [t] /\ intervalRef s = Some (tid t)
         /\ delay t = tickInterval (liveFps s)
         /\ cl_liveFps (callback t) = liveFps s
  else timers s = [] /\ intervalRef s = None.
Proof.
  intros s.
  destruct (SessionInv_run measureText Number_toString es initialLive
              SessionInv_initial eq_refl Ho) as [I C].
  assert (S : scheduled s).
  { apply scheduled_run; try assumption; try reflexivity.
    - exact SessionInv_initial.
    - intros H. discriminate H. }
  fold s in I, C.
  destruct (liveRunning s) eqn:Hr.
  - destruct (S Hr) as (t & T1 & T2 & T3).
    exists t. split; [exact T1|]. split; [exact T2|]. now apply T3.
  - exact (inv_stopped s I Hr).
Qed.

End Schedule.


(** ** The camera of an orderly session *)

Section Camera.

Variable measureText : string -> float.
Variable Number_toString : float -> string.

(** X16: in every orderly execution from the initial state every track
    that is capturing belongs to the stream attached to the video element,
    so that stopLive reaches it; and whenever the session is not running
    and no start is waiting for [play()], no track is capturing. *)
Theorem orderly_camera (es : list Event)
    (Ho : orderlyRun measureText Number_toString es initialLive = true) :
  let s := run measureText Number_toString es initialLive in
  deviceAttached s = true
  /\ (if liveRunning s then True
      else match playsPending s with
           | O => liveTracks s = []
           | S _ => True
           end).
Proof.
  intros s.
  destruct (SessionInv_run measureText Number_toString es initialLive
              SessionInv_initial eq_refl Ho) as [I _].
  fold s in I.
  split; [exact (inv_device s I)|].
  destruct (liveRunning s) eqn:Hr; [exact Logic.I|].
  destruct (playsPending s) eqn:Hp; [|exact Logic.I].
  exact (inv_released s I Hr Hp).
Qed.

End Camera.

(** ** Reset with a request out *)

(** X18: Reset empties the form (no file, no preview, no result, no error)
    but cancels nothing: a request that is out stays out with the loading
    flag up, and when its answer arrives and is ok it becomes the result of
    the emptied form. *)
Theorem reset_keeps_request (s : UploadSession) (f : File) (rest : list File)
    (d : string) (data : DetectResult)
    (Hout : awaiting s = f :: rest)
    (Hreset : resetEnabled (form s) = true) :
  let s1 := uploadStep s ClickReset in
  let s2 := uploadStep s1 (DetectSettles (UploadResponse true d data)) in
  file (form s1) = None /\ preview (form s1) = "" /\ result (form s1) = None
  /\ error (form s1) = ""
  /\ loading (form s1) = loading (form s)
  /\ awaiting s1 = awaiting s
  /\ sent (form s1) = sent (form s)
  /\ file (form s2) = None
  /\ result (form s2) = Some data
  /\ loading (form s2) = false
  /\ awaiting s2 = rest.
Proof.
  intros s1 s2. subst s2 s1. unfold uploadStep.
  rewrite Hreset. cbn [awaiting form]. rewrite Hout.
  repeat split; reflexivity.
Qed.

(* ------------------------------------------------------------------ *)
(** * The further properties on the sample sessions *)

(** The FPS slider was moved to 5 while the camera prompt was open: the
    session starts with one timer of 200 ms. *)
Lemma start_uses_current_settings_witness :
  let s := sample retunedStart in
  lookupPending 1 (pending s) = Some (AwaitPlay (mkClosure 2%float 0.25%float true))
  /\ liveRunning s = false
  /\ timers s = []
  /\ committed s = true
  /\ map delay
       (timers (step sampleMeasureText sampleToString s (PlaySettles 1 true 1%float)))
     = [200%float].
Proof.
  intros s.
  do 4 (split; [reflexivity|]).
  pose proof (start_uses_current_settings sampleMeasureText sampleToString s 1
                (mkClosure 2%float 0.25%float true) 1%float
                eq_refl eq_refl eq_refl eq_refl) as H.
  cbv zeta in H. destruct H as (_ & H & _).
  rewrite H. reflexivity.
Defined.

(** The camera is refused at the prompt. *)
Lemma camera_refused_witness :
  let s := sample promptedSession in
  lookupPending 0 (pending s)
  = Some (AwaitGetUserMedia (mkClosure 2%float 0.25%float true))
  /\ liveRunning s = false
  /\ committed s = true
  /\ toasts (step sampleMeasureText sampleToString s
               (GetUserMediaSettles 0 None 7%float))
     = [mkToast 7%float "Could not access the webcam." "error"].
Proof.
  intros s.
  do 3 (split; [reflexivity|]).
  pose proof (camera_refused sampleMeasureText sampleToString s 0
                (mkClosure 2%float 0.25%float true) 7%float
                eq_refl eq_refl eq_refl) as H.
  cbv zeta in H. destruct H as (_ & _ & _ & _ & _ & _ & H). exact H.
Defined.

(** [play()] rejects after the camera was granted: track 0 keeps capturing. *)
Lemma play_rejected_witness :
  let s := sample grantedSession in
  lookupPending 1 (pending s) = Some (AwaitPlay (mkClosure 2%float 0.25%float true))
  /\ liveRunning s = false
  /\ committed s = true
  /\ liveTracks (step sampleMeasureText sampleToString s
                   (PlaySettles 1 false 7%float))
     = [0%nat].
Proof.
  intros s.
  do 3 (split; [reflexivity|]).
  pose proof (play_rejected sampleMeasureText sampleToString s 1
                (mkClosure 2%float 0.25%float true) 7%float
                eq_refl eq_refl eq_refl) as H.
  cbv zeta in H. destruct H as (_ & _ & _ & H & _). exact H.
Defined.

(** The request in flight is answered ok with one detection. *)
Lemma ok_response_redraws_witness :
  let s := sample requestInFlight in
  lookupPending 3 (pending s)
  = Some (AwaitFetch (mkClosure 2%float 0.25%float true) 640%float 480%float
            0.25%float [])
  /\ canvasRef s = Some blankCanvas
  /\ committed s = true
  /\ List.length
       (overlay (step sampleMeasureText sampleToString s
                   (FetchSettles 3 (Response true (Some [person85])) 5%float)))
     = 3.
Proof.
  intros s.
  do 3 (split; [reflexivity|]).
  pose proof (ok_response_redraws sampleMeasureText sampleToString s 3
                (mkClosure 2%float 0.25%float true) 640%float 480%float
                0.25%float [] blankCanvas (Some [person85]) 5%float
                eq_refl eq_refl eq_refl) as H.
  cbv zeta in H. destruct H as (_ & H & _). exact H.
Defined.


(** Timer 2 ticks again while request 3 is still out: two requests are. *)
Lemma tick_sends_regardless_witness :
  let s := sample requestInFlight in
  videoRef s = Some (mkVideo (Some [0%nat]) 4 640%float 480%float)
  /\ (2 <= 4)%Z
  /\ find (fun t => Pos.eqb (tid t) 2%positive) (timers s)
     = Some (mkTimer 2%positive 500%float (mkClosure 2%float 0.25%float true))
  /\ committed s = true
  /\ requestsOutstanding s = 1
  /\ requestsOutstanding
       (step sampleMeasureText sampleToString
          (step sampleMeasureText sampleToString s (Tick 2%positive))
          (ToBlobCalls (nextPending s) (Some [])))
     = 2.
Proof.
  intros s.
  assert (Hv : videoRef s
               = Some (mkVideo (Some [0%nat]) 4 640%float 480%float))
    by (vm_compute; reflexivity).
  assert (Ht : find (fun t => Pos.eqb (tid t) 2%positive) (timers s)
               = Some (mkTimer 2%positive 500%float
                         (mkClosure 2%float 0.25%float true)))
    by (vm_compute; reflexivity).
  assert (Hc : committed s = true) by (vm_compute; reflexivity).
  assert (K : keysFresh s).
  { vm_compute.
    split; [constructor; [intros Hin; exact Hin|constructor]
           |repeat constructor]. }
  split; [exact Hv|]. split; [lia|]. split; [exact Ht|]. split; [exact Hc|].
  split; [vm_compute; reflexivity|].
  pose proof (tick_sends_regardless sampleMeasureText sampleToString s
                2%positive
                (mkTimer 2%positive 500%float (mkClosure 2%float 0.25%float true))
                (mkVideo (Some [0%nat]) 4 640%float 480%float) []
                Hv ltac:(simpl; lia) Ht K Hc) as H.
  cbv zeta in H. destruct H as (H & _).
  etransitivity; [exact H|]. vm_compute. reflexivity.
Defined.

(** Mirror is unticked in the running session. *)
Lemma settings_change_only_cell_witness :
  let s := sample runningSession in
  onLivePage s = true
  /\ committed s = true
  /\ step sampleMeasureText sampleToString s (ChangeMirror false)
     = set_mirror false s.
Proof.
  intros s.
  do 2 (split; [reflexivity|]).
  pose proof (settings_change_only_cell sampleMeasureText sampleToString s
                false 0.5%float eq_refl eq_refl) as H.
  destruct H as (H & _). exact H.
Defined.

(** The FPS slider is moved to 5 in the running session. *)
Lemma changeFps_single_timer_witness :
  let s := sample runningSession in
  onLivePage s = true
  /\ liveRunning s = true
  /\ timerOwned s = true
  /\ committed s = true
  /\ JS.Object_is (liveFps s) 5%float = false
  /\ timers (step sampleMeasureText sampleToString s (ChangeFps 5%float))
     = [mkTimer 3%positive 200%float (mkClosure 5%float 0.25%float true)].
Proof.
  intros s.
  do 5 (split; [reflexivity|]).
  pose proof (changeFps_single_timer sampleMeasureText sampleToString s 5%float
                eq_refl eq_refl eq_refl eq_refl eq_refl) as H.
  cbv zeta in H. destruct H as (_ & H & _).
  rewrite H. reflexivity.
Defined.

(** The sample session with its request in flight is orderly and runs on
    one timer. *)
Lemma orderly_schedule_witness :
  let s := run sampleMeasureText sampleToString requestInFlight initialLive in
  orderlyRun sampleMeasureText sampleToString requestInFlight initialLive = true
  /\ exists t,
       timers s = [t]
       /\ intervalRef s = Some (tid t)
       /\ delay t = tickInterval (liveFps s)
       /\ cl_liveFps (callback t) = liveFps s.
Proof.
  intros s.
  assert (Ho : orderlyRun sampleMeasureText sampleToString requestInFlight
                 initialLive = true) by (vm_compute; reflexivity).
  split; [exact Ho|].
  pose proof (orderly_schedule sampleMeasureText sampleToString requestInFlight
                Ho) as H.
  cbv zeta in H. fold s in H.
  assert (Hr : liveRunning s = true) by (vm_compute; reflexivity).
  rewrite Hr in H. exact H.
Defined.

(** ... and once Stop Live is clicked no track is capturing. *)
Lemma orderly_camera_witness :
  let es := requestInFlight ++ [ClickStopLive] in
  let s := run sampleMeasureText sampleToString es initialLive in
  orderlyRun sampleMeasureText sampleToString es initialLive = true
  /\ deviceAttached s = true
  /\ liveTracks s = [].
Proof.
  intros es s.
  assert (Ho : orderlyRun sampleMeasureText sampleToString es initialLive
               = true) by (vm_compute; reflexivity).
  split; [exact Ho|].
  pose proof (orderly_camera sampleMeasureText sampleToString es Ho) as H.
  cbv zeta in H. fold s in H.
  assert (Hr : liveRunning s = false) by (vm_compute; reflexivity).
  assert (Hp : playsPending s = 0) by (vm_compute; reflexivity).
  rewrite Hr, Hp in H. exact H.
Defined.

(** Reset is clicked while the request for the JPEG is out. *)
Lemma reset_keeps_request_witness :
  awaiting photoSubmitted = [photo]
  /\ resetEnabled (form photoSubmitted) = true
  /\ loading (form (uploadStep photoSubmitted ClickReset)) = true
  /\ awaiting (uploadStep photoSubmitted ClickReset) = [photo].
Proof.
  do 2 (split; [reflexivity|]).
  pose proof (reset_keeps_request photoSubmitted photo [] ""
                (mkResult "cpu" "/uploads/photo.jpg" []) eq_refl eq_refl) as H.
  cbv zeta in H. destruct H as (_ & _ & _ & _ & H1 & H2 & _).
  split; [exact H1|exact H2].
Defined.
